(** * SOUR bioreactor monitor: the real-time metrics pipeline

    A shallow embedding of three parts of the repository and the
    properties its design document states about them:

    - [Metrics]: [calculateMetrics] of the [useWebSocket] hook
      (Frontend/project/src/hooks), the derivation step applied to
      every frame that arrives;
    - [Transport]: the [WebSocketManager] class
      (Frontend/project/src/utils), as a transition system over the
      manager's fields, the sockets it has constructed and the timers
      it has armed;
    - [Persistence]: the [DatabaseConnection] class (src/data/database.py,
      read off its compiled module), in a state-and-exception monad over
      the two stores.
    - [Mock]: the mock telemetry source ([generateMockMetrics],
      [MockWebSocketManager]) and the [useWebSocket] hook that feeds the
      store from it;
    - [Chart]: the window of points of [MetricsChart];
    - [FeatureFlags]: the feature registry and the store's copy of it.

    JavaScript numbers are modelled as real numbers: rounding is not
    modelled.  Every concrete evaluation below involves only values that
    binary64 represents and computes exactly. *)

From Stdlib Require Import ZArith List String Ascii DecimalString Bool Lia.
From Stdlib Require Import QArith Reals Lra.
From stdpp Require Import base list.
Import ListNotations.

(* ================================================================== *)
(** * Dates: [Date.prototype.toISOString] *)
(* ================================================================== *)

Module IsoDate.

Local Open Scope Z_scope.

Definition msPerDay : Z := 86400000.

(** Decimal digit of [d] (taken modulo 10) as a character. *)
Definition digit (d : Z) : ascii :=
  ascii_of_nat (48 + Z.to_nat (d mod 10)).

(** [pad n z]: the [n] low decimal digits of [z], zero filled. *)
Fixpoint pad (n : nat) (z : Z) : string :=
  match n with
  | O => EmptyString
  | S n' => (pad n' (z / 10) ++ String (digit z) EmptyString)%string
  end.

(** Proleptic Gregorian (year, month, day) of a day number counted from
    1970-01-01, on the 400-year cycle starting on 1 March of year 0. *)
Definition civil_from_days (days : Z) : Z * Z * Z :=
  let z := days + 719468 in
  let era := z / 146097 in
  let doe := z - era * 146097 in
  let yoe := (doe - doe / 1460 + doe / 36524 - doe / 146096) / 365 in
  let doy := doe - (365 * yoe + yoe / 4 - yoe / 100) in
  let mp := (5 * doy + 2) / 153 in
  let d := doy - (153 * mp + 2) / 5 + 1 in
  let m := if mp <? 10 then mp + 3 else mp - 9 in
  let y := yoe + era * 400 + (if m <=? 2 then 1 else 0) in
  (y, m, d).

(** Years 0..9999 print with four digits, the others with a sign and
    six. *)
Definition year_string (y : Z) : string :=
  let sign : string := if y <? 0 then "-"%string else "+"%string in
  if (0 <=? y) && (y <=? 9999) then pad 4 y
  else String.append sign (pad 6 (Z.abs y)).

(** [new Date(ms).toISOString()] for an epoch time [ms] in milliseconds:
    [YYYY-MM-DDTHH:mm:ss.sssZ], in UTC. *)
Definition toISOString (ms : Z) : string :=
  let days := ms / msPerDay in
  let t := ms mod msPerDay in
  let '(y, m, d) := civil_from_days days in
  (year_string y ++ "-" ++ pad 2 m ++ "-" ++ pad 2 d ++ "T"
   ++ pad 2 (t / 3600000) ++ ":" ++ pad 2 (t / 60000 mod 60) ++ ":"
   ++ pad 2 (t / 1000 mod 60) ++ "." ++ pad 3 (t mod 1000) ++ "Z")%string.

End IsoDate.

(* ================================================================== *)
(** * The derivation step: [calculateMetrics] *)
(* ================================================================== *)

Module Metrics.

Local Open Scope R_scope.

(** [RealTimeMetrics] (types/system.ts): the frame pushed by the
    telemetry source.  It has six numeric fields and nothing else; in
    particular it carries no time of capture. *)
Record RealTimeMetrics : Type := mkRealTimeMetrics {
  LB_MFC_1_SP : R;
  LB_MFC_1_PV : R;
  Reactor_1_DO_Value_PPM : R;
  Reactor_1_DO_T_Value : R;
  Reactor_1_PH_Value : R;
  Reactor_1_PH_T_Value : R
}.

(** [Metrics] (types/metrics.ts). *)
Record Metrics : Type := mkMetrics {
  drop_rate : R;
  recovery_time : R;
  our : R;
  sour : R;
  do_saturation : R;
  ph : R;
  temperature : R;
  timestamp : string
}.

(** The wall clock as [calculateMetrics] sees it.  The object literal is
    evaluated top to bottom and reads the clock four times: three calls
    of [Date.now()] (epoch milliseconds) and one [new Date()]. *)
Record Clock : Type := mkClock {
  now_recovery : Z;   (* Date.now() in the recovery_time initialiser *)
  now_our : Z;        (* Date.now() in the our initialiser *)
  now_sour : Z;       (* Date.now() in the sour initialiser *)
  now_date : Z        (* new Date() in the timestamp initialiser *)
}.

(** A clock that does not advance during one evaluation. *)
Definition frozen (t : Z) : Clock := mkClock t t t t.

Definition calculateMetrics (clk : Clock) (data : RealTimeMetrics) : Metrics :=
  {| do_saturation := (Reactor_1_DO_Value_PPM data / 1000) * 100;
     drop_rate := LB_MFC_1_PV data;
     recovery_time := Rabs (10 * sin (IZR (now_recovery clk) / 5000));
     our := Rabs (0.5 + 0.1 * sin (IZR (now_our clk) / 7000));
     sour := Rabs (0.2 + 0.05 * sin (IZR (now_sour clk) / 9000));
     ph := Reactor_1_PH_Value data;
     temperature := Reactor_1_DO_T_Value data;
     timestamp := IsoDate.toISOString (now_date clk) |}.

(** A frame in the range the mock generator produces (utils/mockData.ts). *)
Definition frame_nominal : RealTimeMetrics :=
  mkRealTimeMetrics 0.5 0.48 800 37 7 37.

(** The same frame with a DO probe reading of 2000 PPM. *)
Definition frame_high_DO : RealTimeMetrics :=
  mkRealTimeMetrics 0.5 0.48 2000 37 7 37.

(** The same frame with a negative DO reading. *)
Definition frame_negative_DO : RealTimeMetrics :=
  mkRealTimeMetrics 0.5 0.48 (-5) 37 7 37.

End Metrics.

(* ================================================================== *)
(** * The transport manager: [WebSocketManager] *)
(* ================================================================== *)

Module Transport.

(** ** Data *)

(** [WebSocket.readyState]. *)
Inductive ReadyState : Type := CONNECTING | OPEN | CLOSING | CLOSED.

Definition ReadyState_eqb (a b : ReadyState) : bool :=
  match a, b with
  | CONNECTING, CONNECTING | OPEN, OPEN | CLOSING, CLOSING | CLOSED, CLOSED => true
  | _, _ => false
  end.

(** A socket the manager has constructed.  Sockets live in a heap and
    are referred to by their index in it. *)
Record WebSocket : Type := mkWebSocket {
  url : string;
  readyState : ReadyState
}.

(** The part of [SystemConfig] the manager reads. *)
Record Visualization : Type := mkVisualization {
  update_interval : Z;
  plot_history : Z;
  dashboard_port : Z
}.

Record SystemConfig : Type := mkSystemConfig {
  visualization : Visualization
}.

(** A parsed JSON text. *)
#[warnings="-register-all"]
Inductive JsValue : Type :=
| JNull
| JBool (b : bool)
| JNumber (q : Q)
| JString (s : string)
| JArray (items : list JsValue)
| JObject (members : list (string * JsValue)).

(** Subscribers are told apart by identity, as members of a [Set]. *)
Definition WebSocketCallback : Type := nat.

Inductive ConsoleEntry : Type :=
| LogConnected                       (* console.log('WebSocket connected') *)
| LogReconnecting (attempt : nat)    (* console.log(`Reconnecting... Attempt ${n}`) *)
| ErrorParsing (payload : string)    (* console.error('Error parsing WebSocket data:', e) *)
| ErrorSocket.                       (* console.error('WebSocket error:', e) *)

(** The manager's fields together with what its methods act upon: the
    sockets constructed so far, the [setTimeout] callbacks still
    pending (each is the reconnect closure, kept with its delay in
    milliseconds), the console, and the calls made to subscribers. *)
Record State : Type := mkState {
  ws : option nat;
  reconnectAttempts : nat;
  callbacks : list WebSocketCallback;
  sockets : list WebSocket;
  timers : list Z;
  console : list ConsoleEntry;
  delivered : list (WebSocketCallback * JsValue)
}.

(** [maxReconnectAttempts] and [reconnectTimeout] are private fields
    that are initialised and never assigned. *)
Definition maxReconnectAttempts : nat := 5.
Definition reconnectTimeout : Z := 1000.

(** The manager as [getInstance] first returns it. *)
Definition initial : State :=
  mkState None 0 [] [] [] [] [].

Definition set_ws (v : option nat) (s : State) : State :=
  mkState v (reconnectAttempts s) (callbacks s) (sockets s) (timers s)
          (console s) (delivered s).

Definition set_reconnectAttempts (n : nat) (s : State) : State :=
  mkState (ws s) n (callbacks s) (sockets s) (timers s) (console s)
          (delivered s).

Definition set_callbacks (cbs : list WebSocketCallback) (s : State) : State :=
  mkState (ws s) (reconnectAttempts s) cbs (sockets s) (timers s)
          (console s) (delivered s).

Definition set_sockets (l : list WebSocket) (s : State) : State :=
  mkState (ws s) (reconnectAttempts s) (callbacks s) l (timers s)
          (console s) (delivered s).

Definition set_timers (l : list Z) (s : State) : State :=
  mkState (ws s) (reconnectAttempts s) (callbacks s) (sockets s) l
          (console s) (delivered s).

Definition set_delivered (l : list (WebSocketCallback * JsValue)) (s : State)
  : State :=
  mkState (ws s) (reconnectAttempts s) (callbacks s) (sockets s) (timers s)
          (console s) l.

Definition console_add (e : ConsoleEntry) (s : State) : State :=
  mkState (ws s) (reconnectAttempts s) (callbacks s) (sockets s) (timers s)
          (console s ++ [e]) (delivered s).

(** ** The browser's side of a socket *)

Definition set_readyState (r : ReadyState) (k : WebSocket) : WebSocket :=
  mkWebSocket (url k) r.

(** [WebSocket.close()]: starts closing a socket that is connecting or
    open, and does nothing to one that is closing or closed. *)
Definition WebSocket_close (k : WebSocket) : WebSocket :=
  match readyState k with
  | CONNECTING | OPEN => set_readyState CLOSING k
  | CLOSING | CLOSED => k
  end.

(** Does the handle refer to a socket in the given ready state? *)
Definition socket_in (r : ReadyState) (h : nat) (s : State) : bool :=
  match sockets s !! h with
  | Some k => ReadyState_eqb (readyState k) r
  | None => false
  end.

(** A socket counts as a live connection until it is closed. *)
Definition live (k : WebSocket) : bool :=
  negb (ReadyState_eqb (readyState k) CLOSED).

Definition live_sockets (s : State) : nat :=
  length (filter (fun k => live k = true) (sockets s)).

(** ** The methods *)

(** The template literal [`ws://localhost:${port}/ws`].  The port is
    taken to be an integer of magnitude below 10^21, the numbers a
    template literal prints as their decimal digits. *)
Definition wsEndpoint (config : SystemConfig) : string :=
  ("ws://localhost:"
   ++ NilZero.string_of_int
        (Z.to_int (dashboard_port (visualization config)))
   ++ "/ws")%string.

(** [this.ws?.readyState === WebSocket.OPEN]. *)
Definition held_open (s : State) : bool :=
  match ws s with
  | Some h => socket_in OPEN h s
  | None => false
  end.

(** [connect]: returns at once when the held socket is open; otherwise
    constructs a socket, which starts out connecting, and holds it.  The
    four handlers it installs are [onopen], [onmessage], [onclose] and
    [onerror] below; none of them refers to the socket it sits on. *)
Definition connect (config : SystemConfig) (s : State) : State :=
  if held_open s then s
  else
    set_ws (Some (length (sockets s)))
      (set_sockets (sockets s ++ [mkWebSocket (wsEndpoint config) CONNECTING]) s).

Definition onopen (s : State) : State :=
  set_reconnectAttempts 0 (console_add LogConnected s).

(** The configuration the reconnect closure passes to [connect]. *)
Definition reconnectConfig : SystemConfig :=
  mkSystemConfig (mkVisualization 5000 3600 8050).

(** The closure given to [setTimeout]. *)
Definition reconnect (s : State) : State :=
  connect reconnectConfig
    (console_add (LogReconnecting (reconnectAttempts s)) s).

Definition handleDisconnect (s : State) : State :=
  if (reconnectAttempts s <? maxReconnectAttempts)%nat then
    let s' := set_reconnectAttempts (S (reconnectAttempts s)) s in
    set_timers
      (timers s' ++ [(reconnectTimeout * Z.of_nat (reconnectAttempts s'))%Z]) s'
  else s.

Definition onclose (s : State) : State := handleDisconnect s.

Definition onerror (s : State) : State :=
  handleDisconnect (console_add ErrorSocket s).

(** [callbacks.add]: a [Set] keeps one copy of a member. *)
Definition subscribe (cb : WebSocketCallback) (s : State) : State :=
  if existsb (Nat.eqb cb) (callbacks s) then s
  else set_callbacks (callbacks s ++ [cb]) s.

(** The function [subscribe] returns: [callbacks.delete]. *)
Definition unsubscribe (cb : WebSocketCallback) (s : State) : State :=
  set_callbacks (filter (fun c => c <> cb) (callbacks s)) s.

Definition disconnect (s : State) : State :=
  match ws s with
  | Some h =>
      set_ws None
        (set_sockets (alter WebSocket_close h (sockets s)) s)
  | None => s
  end.

Section WithParser.

(** [JSON.parse]: [None] stands for the [SyntaxError] it throws on a
    text that is not JSON. *)
Variable JSON_parse : string -> option JsValue.

(** Whether a subscriber, called with a value, throws.  A subscriber is
    any function; one that reads a property of its argument, as the
    hook's [handleData] does, throws a [TypeError] on [null]. *)
Variable throws : WebSocketCallback -> JsValue -> bool.

(** [callbacks.forEach(callback => callback(data))], in insertion
    order: the calls made, up to and including the first one that
    throws, and whether one threw.  An exception leaves [forEach]. *)
Fixpoint forEach_call (data : JsValue) (cbs : list WebSocketCallback)
  : list (WebSocketCallback * JsValue) * bool :=
  match cbs with
  | [] => ([], false)
  | cb :: rest =>
      if throws cb data then ([(cb, data)], true)
      else
        let '(calls, threw) := forEach_call data rest in
        ((cb, data) :: calls, threw)
  end.

Definition notifyCallbacks (data : JsValue) (s : State) : State * bool :=
  let '(calls, threw) := forEach_call data (callbacks s) in
  (set_delivered (delivered s ++ calls) s, threw).

(** [onmessage]: the [try] block parses and notifies; the [catch]
    block logs whatever either of them has thrown, the exception of a
    subscriber like the [SyntaxError] of the parser. *)
Definition onmessage (data : string) (s : State) : State :=
  match JSON_parse data with
  | Some v =>
      let '(s', threw) := notifyCallbacks v s in
      if threw then console_add (ErrorParsing data) s' else s'
  | None => console_add (ErrorParsing data) s
  end.

(** ** Events *)

(** What can happen to a manager: a call of one of its public
    methods, an event the browser fires at one of its sockets, or a
    pending timer running. *)
Inductive Event : Type :=
| CallConnect (config : SystemConfig)
| CallDisconnect
| CallSubscribe (cb : WebSocketCallback)
| CallUnsubscribe (cb : WebSocketCallback)
| SocketOpens (h : nat)
| SocketMessage (h : nat) (data : string)
| SocketError (h : nat)
| SocketCloses (h : nat)
| TimerFires (k : nat).

Definition mark (r : ReadyState) (h : nat) (s : State) : State :=
  set_sockets (alter (set_readyState r) h (sockets s)) s.

(** The browser fires [open] at a connecting socket, [message] at an
    open one, and [error] and [close] at one that is not yet closed;
    [close] is the last event of a socket.  Events that cannot occur
    leave the state alone. *)
Definition step (e : Event) (s : State) : State :=
  match e with
  | CallConnect config => connect config s
  | CallDisconnect => disconnect s
  | CallSubscribe cb => subscribe cb s
  | CallUnsubscribe cb => unsubscribe cb s
  | SocketOpens h =>
      if socket_in CONNECTING h s then onopen (mark OPEN h s) else s
  | SocketMessage h data =>
      if socket_in OPEN h s then onmessage data s else s
  | SocketError h =>
      match sockets s !! h with
      | Some k => if live k then onerror s else s
      | None => s
      end
  | SocketCloses h =>
      match sockets s !! h with
      | Some k => if live k then onclose (mark CLOSED h s) else s
      | None => s
      end
  | TimerFires k =>
      match timers s !! k with
      | Some _ => reconnect (set_timers (delete k (timers s)) s)
      | None => s
      end
  end.

Definition run (es : list Event) (s : State) : State :=
  fold_left (fun s e => step e s) es s.

End WithParser.

(** A parser for the three JSON keywords, to run the handlers on
    concrete payloads. *)
Definition parse_keyword (data : string) : option JsValue :=
  if String.eqb data "null" then Some JNull
  else if String.eqb data "true" then Some (JBool true)
  else if String.eqb data "false" then Some (JBool false)
  else None.

(** Subscribers that return normally on every value. *)
Definition never_throws (cb : WebSocketCallback) (data : JsValue) : bool :=
  false.

(** Subscribers that read a property of their argument: on [null] the
    read throws a [TypeError]; on any other value it yields the
    property or [undefined]. *)
Definition throws_on_null (cb : WebSocketCallback) (data : JsValue) : bool :=
  match data with
  | JNull => true
  | _ => false
  end.

(** The manager after [connect] and the [open] event of its socket. *)
Definition connected : State :=
  run parse_keyword never_throws [CallConnect reconnectConfig; SocketOpens 0]
    initial.

End Transport.

(* ================================================================== *)
(** * The persistence layer: [DatabaseConnection] *)
(* ================================================================== *)

Module Persistence.

Local Open Scope string_scope.

(** ** Values, statements, exceptions *)

(** A Python [float] by its value: a number, an infinity or NaN.  The
    two zeros, which compare equal, are one value here. *)
Inductive Float : Type :=
| FNum (q : Q)
| FInf (negative : bool)
| FNaN.

(** The Python values that cross the class's interface. *)
#[warnings="-register-all"]
Inductive PyVal : Type :=
| PyNone
| PyBool (b : bool)
| PyInt (z : Z)
| PyFloat (x : Float)
| PyStr (s : string)
| PyDatetime (epoch_seconds : Z)
| PyDict (items : list (string * PyVal)).

(** A statement as handed to a driver: its text and the values bound to
    its named parameters. *)
Record Statement : Type := mkStatement {
  sql : string;
  params : list (string * PyVal)
}.

(** A result set, and a [pandas.DataFrame]: column names and rows. *)
Record DataFrame : Type := mkDataFrame {
  columns : list string;
  rows : list (list PyVal)
}.

(** [pd.DataFrame()]. *)
Definition empty_frame : DataFrame := mkDataFrame [] [].

Inductive ExnClass : Type :=
| OperationalError | ProgrammingError | OSError
| KeyError | AttributeError | TypeError | IndexError | ValueError.

(** An exception; all the classes above derive from [Exception].
    [exn_msg] is what [str(e)] gives. *)
Record Exn : Type := mkExn {
  exn_class : ExnClass;
  exn_msg : string
}.

Inductive Result (A : Type) : Type :=
| Ok (a : A)
| Raise (e : Exn).
Arguments Ok {A} a.
Arguments Raise {A} e.

Definition raised {A : Type} (r : Result A) : bool :=
  match r with Ok _ => false | Raise _ => true end.

(** ** The world outside the class *)

Inductive Level : Type := INFO | WARNING | ERROR.

(** A line of output: a literal, or an f-string made of a literal
    followed by one formatted value. *)
Inductive Text : Type :=
| Lit (s : string)
| Fmt (prefix : string) (v : PyVal).

(** [f"{prefix}{e}"] for an exception [e]. *)
Definition FmtExn (prefix : string) (e : Exn) : Text :=
  Fmt prefix (PyStr (exn_msg e)).

(** A row of the local table [feed_parameters].  A [FLOAT] column
    holds [NULL] or a float. *)
Record FeedRow : Type := mkFeedRow {
  row_id : Z;
  row_feed_type : string;
  row_toc_value : option Float;
  row_glucose_concentration : option Float;
  row_timestamp : Z            (* CURRENT_TIMESTAMP, in whole seconds *)
}.

Record World : Type := mkWorld {
  environ : list (string * string);            (* os.environ *)
  (* the upstream SQL Server: which ODBC connection strings it accepts,
     and what it answers to a statement *)
  upstream_accepts : string -> bool;
  upstream_answer : Statement -> Result DataFrame;
  (* the local SQLite store *)
  data_dir_ok : bool;                          (* mkdir of data/ succeeds *)
  local_ok : bool;                             (* data/dashboard.db opens *)
  feed_parameters : option (list FeedRow);     (* None: no such table *)
  process_parameters : bool;                   (* does the table exist *)
  clock : Z;                                   (* now, in whole seconds *)
  (* what the class leaves behind *)
  log : list (Level * Text);                   (* the module's logger *)
  stdout : list Text;                          (* print *)
  issued : list Statement                      (* sent to the upstream *)
}.

Definition add_log (l : Level) (msg : Text) (w : World) : World :=
  mkWorld (environ w) (upstream_accepts w) (upstream_answer w) (data_dir_ok w)
          (local_ok w) (feed_parameters w) (process_parameters w) (clock w)
          (log w ++ [(l, msg)]) (stdout w) (issued w).

Definition add_stdout (msg : Text) (w : World) : World :=
  mkWorld (environ w) (upstream_accepts w) (upstream_answer w) (data_dir_ok w)
          (local_ok w) (feed_parameters w) (process_parameters w) (clock w)
          (log w) (stdout w ++ [msg]) (issued w).

Definition add_issued (st : Statement) (w : World) : World :=
  mkWorld (environ w) (upstream_accepts w) (upstream_answer w) (data_dir_ok w)
          (local_ok w) (feed_parameters w) (process_parameters w) (clock w)
          (log w) (stdout w) (issued w ++ [st]).

Definition set_tables (f : option (list FeedRow)) (p : bool) (w : World) : World :=
  mkWorld (environ w) (upstream_accepts w) (upstream_answer w) (data_dir_ok w)
          (local_ok w) f p (clock w) (log w) (stdout w) (issued w).


(** ** A monad for state and exceptions *)

Section Monad.

Context {S : Type}.

Definition M (A : Type) : Type := S -> Result A * S.

Definition ret {A : Type} (a : A) : M A := fun s => (Ok a, s).

Definition bind {A B : Type} (m : M A) (k : A -> M B) : M B :=
  fun s =>
    match m s with
    | (Ok a, s') => k a s'
    | (Raise e, s') => (Raise e, s')
    end.

Definition raise {A : Type} (e : Exn) : M A := fun s => (Raise e, s).

(** [try: m except Exception as e: h e]. *)
Definition try_except {A : Type} (m : M A) (h : Exn -> M A) : M A :=
  fun s =>
    match m s with
    | (Ok a, s') => (Ok a, s')
    | (Raise e, s') => h e s'
    end.

Definition modify (f : S -> S) : M unit := fun s => (Ok tt, f s).

Definition gets {A : Type} (f : S -> A) : M A := fun s => (Ok (f s), s).

(** [with enter as x: body x].  Leaving the block, normally or by an
    exception, closes [x]; the exception, if any, goes on. *)
Definition with_ {A B : Type} (enter : M A) (body : A -> M B) : M B :=
  bind enter body.

End Monad.

Notation "'do' x <- m ; k" := (bind m (fun x => k))
  (at level 10, x name, m at level 100, k at level 200).
Notation "'do_' m ; k" := (bind m (fun _ => k))
  (at level 10, m at level 100, k at level 200).

(** ** SQL text: the arguments of [text(...)], character for character *)

(** The statement of [_test_connection]. *)
Definition query_version : string := "SELECT @@version".

(** In [initialize_dashboard_database]. *)
Definition feed_params_table : string :=
  "
            CREATE TABLE IF NOT EXISTS feed_parameters (
                id INTEGER PRIMARY KEY AUTOINCREMENT,
                feed_type VARCHAR(50) NOT NULL,
                toc_value FLOAT,
                glucose_concentration FLOAT,
                timestamp DATETIME DEFAULT CURRENT_TIMESTAMP
            )
        ".

(** In [initialize_dashboard_database]. *)
Definition process_params_table : string :=
  "
            CREATE TABLE IF NOT EXISTS process_parameters (
                id INTEGER PRIMARY KEY AUTOINCREMENT,
                tss_value FLOAT NOT NULL,
                timestamp DATETIME DEFAULT CURRENT_TIMESTAMP
            )
        ".

(** In [get_latest_data]. *)
Definition query_latest_data : string :=
  "
            SELECT 
                DateTime as timestamp,  -- Explicitly name as timestamp
                -- Rest of columns
                LB_MFC_1_SP,
                LB_MFC_1_PV,
                Reactor_1_DO_Value_PPM,
                Reactor_1_DO_T_Value,
                Reactor_1_PH_Value,
                Reactor_1_PH_T_Value,
                R1_Weight_Bal,
                R2_Weight_Bal,
                LB_Perastaltic_P_1,
                R1_Perastaltic_1_Time,
                R1_Perastaltic_1_Time_off,
                Reactor_1_Speed_RPM,
                Reactor_1_Torque_Real
            FROM ReactorData
            WHERE DateTime >= DATEADD(minute, -:minutes, GETDATE())
            ORDER BY DateTime ASC
        ".

(** In [get_current_values]. *)
Definition query_current_values : string :=
  "
            SELECT TOP 1
                -- MFC1 values
                LB_MFC_1_SP,
                LB_MFC_1_PV,
                -- Reactor 1 DO
                Reactor_1_DO_Value_PPM,
                Reactor_1_DO_T_Value,
                -- Reactor 1 pH
                Reactor_1_PH_Value,
                Reactor_1_PH_T_Value,
                -- Weights
                R1_Weight_Bal,
                R2_Weight_Bal,
                -- Pump 1 settings
                LB_Perastaltic_P_1,
                R1_Perastaltic_1_Time,
                R1_Perastaltic_1_Time_off,
                -- Speed and torque
                Reactor_1_Speed_RPM,
                Reactor_1_Torque_Real
            FROM ReactorData
            ORDER BY DateTime DESC
        ".

(** In [save_feed_parameters]. *)
Definition query_save_feed_parameters : string :=
  "
            INSERT INTO feed_parameters (feed_type, toc_value, glucose_concentration)
            VALUES (:feed_type, :toc, :glucose_conc)
        ".

(** In [get_feed_parameters]. *)
Definition query_get_feed_parameters : string :=
  "
            SELECT feed_type, toc_value, glucose_concentration, timestamp
            FROM feed_parameters
            ORDER BY timestamp DESC
            LIMIT 1
        ".

(** In [get_historical_data]. *)
Definition query_historical_data : string :=
  "
            SELECT timestamp, do_value, ph_value, temperature, 
                   agitation, reactor_weight, feed_bottle_weight
            FROM sensor_data
            WHERE timestamp BETWEEN :start_time AND :end_time
            ORDER BY timestamp ASC
        ".

(** ** Primitives of the drivers *)

Definition print (t : Text) : M (S := World) unit := modify (add_stdout t).

Definition logger (l : Level) (t : Text) : M (S := World) unit :=
  modify (add_log l t).

(** [os.getenv(key, default)]. *)
Definition getenv (key default : string) (w : World) : string :=
  match find (fun kv => String.eqb (fst kv) key) (environ w) with
  | Some kv => snd kv
  | None => default
  end.

(** [str.lower], on ASCII. *)
Definition lower_ascii (c : ascii) : ascii :=
  let n := nat_of_ascii c in
  if (65 <=? n)%nat && (n <=? 90)%nat then ascii_of_nat (n + 32) else c.

Fixpoint lower (s : string) : string :=
  match s with
  | EmptyString => EmptyString
  | String c s' => String (lower_ascii c) (lower s')
  end.

(** Reading an attribute that [__init__] may not have set. *)
Definition attribute {A : Type} (name : string) (a : option A)
  : M (S := World) A :=
  match a with
  | Some x => ret x
  | None =>
      raise (mkExn AttributeError
               ("'DatabaseConnection' object has no attribute '" ++ name ++ "'"))
  end.

(** Opening a connection to the upstream server, through [pyodbc] or
    through the engine: it succeeds when the server accepts the
    connection string. *)
Definition upstream_connect (odbc : string) : M (S := World) unit :=
  fun w =>
    if upstream_accepts w odbc then (Ok tt, w)
    else (Raise (mkExn OperationalError "upstream connection failed"), w).

(** Executing a statement on an upstream connection: the statement goes
    out, and the server's answer, a result set or an error, comes
    back. *)
Definition upstream_execute (text : string) (ps : list (string * PyVal))
  : M (S := World) DataFrame :=
  fun w =>
    let st := mkStatement text ps in
    (upstream_answer w st, add_issued st w).

(** Opening a connection to the local store. *)
Definition local_connect : M (S := World) unit :=
  fun w =>
    if local_ok w then (Ok tt, w)
    else (Raise (mkExn OperationalError "unable to open database file"), w).

(** The two [CREATE TABLE IF NOT EXISTS] statements, on the local
    store. *)
Definition local_create_feed_parameters : M (S := World) unit :=
  modify (fun w =>
    set_tables (Some (default [] (feed_parameters w))) (process_parameters w) w).

Definition local_create_process_parameters : M (S := World) unit :=
  modify (fun w => set_tables (feed_parameters w) true w).

(** [AUTOINCREMENT]: one more than the largest id in use; the class
    deletes no row. *)
Definition next_id (l : list FeedRow) : Z :=
  (fold_right Z.max 0 (map row_id l) + 1)%Z.

(** What SQLite stores for a [float] or [None] bound to a parameter:
    it has no NaN and stores [NULL] in its place, as it does for
    [None]. *)
Definition bind_float (v : option Float) : option Float :=
  match v with
  | Some FNaN => None
  | _ => v
  end.

(** The [INSERT] of [save_feed_parameters]: the row gets the next id,
    the values as SQLite stores them, and the current time.  A text is
    given by the bytes of its UTF-8 encoding, and stored as it is. *)
Definition local_insert_feed (feed_type : string)
    (toc glucose_conc : option Float) : M (S := World) unit :=
  fun w =>
    match feed_parameters w with
    | Some l =>
        (Ok tt,
         set_tables
           (Some (l ++ [mkFeedRow (next_id l) feed_type (bind_float toc)
                          (bind_float glucose_conc) (clock w)])%list)
           (process_parameters w) w)
    | None =>
        (Raise (mkExn OperationalError "no such table: feed_parameters"), w)
    end.

(** [ORDER BY timestamp DESC LIMIT 1] over a table in rowid order: a row
    with the largest timestamp.  SQL leaves open which one when several
    rows share it; here it is the one stored first.  What is proved
    below about reading back a saved row assumes that row strictly
    newer than the others, and so holds for any other choice too. *)
Fixpoint latest (l : list FeedRow) : option FeedRow :=
  match l with
  | [] => None
  | r :: l' =>
      match latest l' with
      | Some r' => if (row_timestamp r <? row_timestamp r')%Z then Some r' else Some r
      | None => Some r
      end
  end.

(** The [SELECT] of [get_feed_parameters], with [fetchone()]. *)
Definition local_select_feed : M (S := World) (option FeedRow) :=
  fun w =>
    match feed_parameters w with
    | Some l => (Ok (latest l), w)
    | None =>
        (Raise (mkExn OperationalError "no such table: feed_parameters"), w)
    end.

(** A frame's column: [df[name]], and [df[name] = values]. *)
Fixpoint index_of (name : string) (cols : list string) : option nat :=
  match cols with
  | [] => None
  | c :: cols' =>
      if String.eqb c name then Some O else option_map S (index_of name cols')
  end.

Definition column_get (name : string) (df : DataFrame)
  : M (S := World) (list PyVal) :=
  match index_of name (columns df) with
  | Some i => ret (map (fun r => nth i r PyNone) (rows df))
  | None => raise (mkExn KeyError name)
  end.

Fixpoint zip_set (i : nat) (rs : list (list PyVal)) (vs : list PyVal)
  : list (list PyVal) :=
  match rs, vs with
  | r :: rs', v :: vs' => <[i := v]> r :: zip_set i rs' vs'
  | _, _ => rs
  end.

Definition column_set (name : string) (vs : list PyVal) (df : DataFrame)
  : DataFrame :=
  match index_of name (columns df) with
  | Some i => mkDataFrame (columns df) (zip_set i (rows df) vs)
  | None =>
      mkDataFrame (columns df ++ [name])%list
                  (map (fun rv => (fst rv ++ [snd rv])%list) (combine (rows df) vs))
  end.

(** [fetchone()]: the first row, with its column names, or [None]. *)
Definition fetchone (df : DataFrame) : option (list (string * PyVal)) :=
  match rows df with
  | r :: _ => Some (combine (columns df) r)
  | [] => None
  end.

(** [row.name]. *)
Definition row_attr (name : string) (r : list (string * PyVal))
  : M (S := World) PyVal :=
  match find (fun kv => String.eqb (fst kv) name) r with
  | Some kv => ret (snd kv)
  | None => raise (mkExn AttributeError name)
  end.

(** How SQLite hands back a [CURRENT_TIMESTAMP]: [YYYY-MM-DD HH:MM:SS],
    in UTC. *)
Definition sqlite_datetime (seconds : Z) : string :=
  let t := (seconds mod 86400)%Z in
  let '(y, m, d) := IsoDate.civil_from_days (seconds / 86400)%Z in
  IsoDate.year_string y ++ "-" ++ IsoDate.pad 2 m ++ "-" ++ IsoDate.pad 2 d
  ++ " " ++ IsoDate.pad 2 (t / 3600)%Z ++ ":" ++ IsoDate.pad 2 (t / 60 mod 60)%Z
  ++ ":" ++ IsoDate.pad 2 (t mod 60)%Z.

(** The Python value of a [FLOAT] column. *)
Definition of_float (o : option Float) : PyVal :=
  match o with Some x => PyFloat x | None => PyNone end.

(** ** The class *)

Record DatabaseConnection : Type := mkDatabaseConnection {
  is_connected : bool;
  required : bool;
  server : string;
  database : string;
  username : string;
  password : string;
  driver : string;
  port : string;
  trusted_connection : string;
  (* set inside the [try] block of [__init__]; [None]: not set *)
  conn_str : option string;
  reactor_engine : option string;     (* the engine's ODBC string *)
  dashboard_engine : option string    (* the engine's file *)
}.

Definition set_is_connected (b : bool) (self : DatabaseConnection) :=
  mkDatabaseConnection b (required self) (server self) (database self)
    (username self) (password self) (driver self) (port self)
    (trusted_connection self) (conn_str self) (reactor_engine self)
    (dashboard_engine self).

Definition set_conn_str (v : string) (self : DatabaseConnection) :=
  mkDatabaseConnection (is_connected self) (required self) (server self)
    (database self) (username self) (password self) (driver self) (port self)
    (trusted_connection self) (Some v) (reactor_engine self)
    (dashboard_engine self).

Definition set_reactor_engine (v : string) (self : DatabaseConnection) :=
  mkDatabaseConnection (is_connected self) (required self) (server self)
    (database self) (username self) (password self) (driver self) (port self)
    (trusted_connection self) (conn_str self) (Some v) (dashboard_engine self).

Definition set_dashboard_engine (v : string) (self : DatabaseConnection) :=
  mkDatabaseConnection (is_connected self) (required self) (server self)
    (database self) (username self) (password self) (driver self) (port self)
    (trusted_connection self) (conn_str self) (reactor_engine self) (Some v).

Definition _build_connection_string (self : DatabaseConnection) : string :=
  let conn_str :=
    "DRIVER=" ++ driver self ++ ";SERVER=" ++ server self ++ "," ++ port self
    ++ ";DATABASE=" ++ database self ++ ";" in
  if String.eqb (lower (trusted_connection self)) "yes"
  then conn_str ++ "Trusted_Connection=yes;"
  else conn_str ++ "UID=" ++ username self ++ ";PWD=" ++ password self ++ ";".

Definition _test_connection (self : DatabaseConnection) : M (S := World) unit :=
  try_except
    (do cs <- attribute "conn_str" (conn_str self);
     with_ (upstream_connect cs) (fun _ =>
       do df <- upstream_execute query_version [];
       do version <-
         match rows df with
         | [] => raise (mkExn TypeError "'NoneType' object is not subscriptable")
         | [] :: _ => raise (mkExn IndexError "tuple index out of range")
         | (v :: _) :: _ => ret v
         end;
       logger INFO (Fmt "Successfully connected to MS SQL Server: " version)))
    (fun e =>
       do_ logger ERROR (FmtExn "Failed to connect to database: " e);
       raise e).

(** The engine is created without touching the server. *)
Definition _create_reactor_engine (self : DatabaseConnection)
  : M (S := World) string :=
  attribute "conn_str" (conn_str self).

Definition _create_dashboard_engine : M (S := World) string :=
  fun w =>
    if data_dir_ok w then (Ok "data/dashboard.db", w)
    else (Raise (mkExn OSError "data"), w).

Definition initialize_dashboard_database (self : DatabaseConnection)
  : M (S := World) unit :=
  try_except
    (do_ attribute "dashboard_engine" (dashboard_engine self);
     with_ local_connect (fun _ =>
       do_ local_create_feed_parameters;
       do_ local_create_process_parameters;
       print (Lit "Dashboard database initialized successfully")))
    (fun e => print (FmtExn "Error initializing dashboard database: " e)).

(** [__init__] assigns to [self] as it goes, so it runs on the object
    together with the world. *)
Definition liftW {A : Type} (m : M (S := World) A)
  : M (S := DatabaseConnection * World) A :=
  fun sw => let (r, w') := m (snd sw) in (r, (fst sw, w')).

Definition self_ : M (S := DatabaseConnection * World) DatabaseConnection :=
  gets fst.

Definition assign (f : DatabaseConnection -> DatabaseConnection)
  : M (S := DatabaseConnection * World) unit :=
  modify (fun sw => (f (fst sw), snd sw)).

Definition __init__ (required : bool)
  : M (S := DatabaseConnection * World) unit :=
  do w <- gets snd;
  do_ assign (fun _ =>
        mkDatabaseConnection false required
          (getenv "MSSQL_SERVER" "localhost" w)
          (getenv "MSSQL_DATABASE" "dbreactor" w)
          (getenv "MSSQL_USERNAME" "dbreactor" w)
          (getenv "MSSQL_PASSWORD" "" w)
          (getenv "MSSQL_DRIVER" "{ODBC Driver 17 for SQL Server}" w)
          (getenv "MSSQL_PORT" "1433" w)
          (getenv "MSSQL_TRUSTED_CONNECTION" "no" w)
          None None None);
  try_except
    (do self <- self_;
     do_ assign (set_conn_str (_build_connection_string self));
     do self <- self_;
     do engine <- liftW (_create_reactor_engine self);
     do_ assign (set_reactor_engine engine);
     do engine <- liftW _create_dashboard_engine;
     do_ assign (set_dashboard_engine engine);
     do self <- self_;
     do_ liftW (initialize_dashboard_database self);
     do self <- self_;
     do_ liftW (_test_connection self);
     do_ assign (set_is_connected true);
     liftW (logger INFO (Lit "Database connection established successfully")))
    (fun e =>
       do_ liftW (logger ERROR (FmtExn "Failed to connect to database: " e));
       do self <- self_;
       if Persistence.required self then raise e
       else
         liftW (logger WARNING
                  (Lit "Continuing with limited functionality (no database connection)"))).

(** The object before [__init__] has run: no attribute means anything
    yet. *)
Definition blank : DatabaseConnection :=
  mkDatabaseConnection false false "" "" "" "" "" "" "" None None None.

(** [DatabaseConnection(required)]: the new object, or the exception
    [__init__] lets through. *)
Definition new (required : bool) (w : World)
  : Result DatabaseConnection * World :=
  match __init__ required (blank, w) with
  | (Ok _, (self, w')) => (Ok self, w')
  | (Raise e, (_, w')) => (Raise e, w')
  end.

Section Pandas.

(** [pd.to_datetime] on a column: the converted column, or the
    exception it raises on a value it cannot convert. *)
Variable pd_to_datetime : list PyVal -> Result (list PyVal).

Definition to_datetime (vs : list PyVal) : M (S := World) (list PyVal) :=
  fun w => (pd_to_datetime vs, w).

(** [pd.read_sql_query(query, conn, params=...)]. *)
Definition read_sql_query (query : string) (ps : list (string * PyVal))
  : M (S := World) DataFrame :=
  upstream_execute query ps.

Definition get_latest_data (self : DatabaseConnection) (minutes : Z)
  : M (S := World) DataFrame :=
  try_except
    (do engine <- attribute "reactor_engine" (reactor_engine self);
     with_ (upstream_connect engine) (fun _ =>
       do df <- read_sql_query query_latest_data [("minutes", PyInt minutes)];
       do ts <- column_get "timestamp" df;
       do ts' <- to_datetime ts;
       ret (column_set "timestamp" ts' df)))
    (fun e =>
       do_ logger ERROR (FmtExn "Error fetching data: " e);
       ret empty_frame).

Definition get_historical_data (self : DatabaseConnection)
    (start_time end_time : string) : M (S := World) DataFrame :=
  do engine <- attribute "reactor_engine" (reactor_engine self);
  with_ (upstream_connect engine) (fun _ =>
    do df <- read_sql_query query_historical_data
               [("start_time", PyStr start_time); ("end_time", PyStr end_time)];
    do ts <- column_get "timestamp" df;
    do ts' <- to_datetime ts;
    ret (column_set "timestamp" ts' df)).

End Pandas.

Definition get_current_values (self : DatabaseConnection)
  : M (S := World) PyVal :=
  try_except
    (do engine <- attribute "reactor_engine" (reactor_engine self);
     with_ (upstream_connect engine) (fun _ =>
       do df <- upstream_execute query_current_values [];
       match fetchone df with
       | Some ((_ :: _) as result) =>
           do sp <- row_attr "LB_MFC_1_SP" result;
           do pv <- row_attr "LB_MFC_1_PV" result;
           do do_value <- row_attr "Reactor_1_DO_Value_PPM" result;
           do do_temp <- row_attr "Reactor_1_DO_T_Value" result;
           do ph_value <- row_attr "Reactor_1_PH_Value" result;
           do ph_temp <- row_attr "Reactor_1_PH_T_Value" result;
           do r1 <- row_attr "R1_Weight_Bal" result;
           do r2 <- row_attr "R2_Weight_Bal" result;
           do status <- row_attr "LB_Perastaltic_P_1" result;
           do time_on <- row_attr "R1_Perastaltic_1_Time" result;
           do time_off <- row_attr "R1_Perastaltic_1_Time_off" result;
           do speed <- row_attr "Reactor_1_Speed_RPM" result;
           do torque <- row_attr "Reactor_1_Torque_Real" result;
           ret (PyDict
                  [("mfc1", PyDict [("sp", sp); ("pv", pv)]);
                   ("do", PyDict [("value", do_value); ("temp", do_temp)]);
                   ("ph", PyDict [("value", ph_value); ("temp", ph_temp)]);
                   ("weights", PyDict [("r1", r1); ("r2", r2)]);
                   ("pump", PyDict [("status", status); ("time_on", time_on);
                                    ("time_off", time_off)]);
                   ("operation", PyDict [("speed", speed); ("torque", torque)])])
       | _ => ret (PyDict [])
       end))
    (fun e =>
       do_ print (FmtExn "Error fetching current values: " e);
       ret (PyDict [])).

Definition save_feed_parameters (self : DatabaseConnection)
    (feed_type : string) (toc glucose_conc : option Float) : M (S := World) unit :=
  try_except
    (do_ attribute "dashboard_engine" (dashboard_engine self);
     with_ local_connect (fun _ =>
       do_ local_insert_feed feed_type toc glucose_conc;
       print (Lit "Feed parameters saved successfully")))
    (fun e => print (FmtExn "Error saving feed parameters: " e)).

Definition get_feed_parameters (self : DatabaseConnection)
  : M (S := World) PyVal :=
  try_except
    (do_ attribute "dashboard_engine" (dashboard_engine self);
     with_ local_connect (fun _ =>
       do result <- local_select_feed;
       match result with
       | Some r =>
           ret (PyDict
                  [("feed_type", PyStr (row_feed_type r));
                   ("toc_value", of_float (row_toc_value r));
                   ("glucose_concentration", of_float (row_glucose_concentration r));
                   ("timestamp", PyStr (sqlite_datetime (row_timestamp r)))])
       | None => ret (PyDict [])
       end))
    (fun e =>
       do_ print (FmtExn "Error fetching feed parameters: " e);
       ret (PyDict [])).

Definition __enter__ (self : DatabaseConnection) : DatabaseConnection := self.

(** [__exit__] returns [False]: an exception of the block goes on. *)
Definition __exit__ (exc : option Exn)
  : M (S := DatabaseConnection * World) bool :=
  do self <- self_;
  do_ (if is_connected self then
         do_ liftW (attribute "reactor_engine" (reactor_engine self));
         do_ liftW (attribute "dashboard_engine" (dashboard_engine self));
         do_ assign (set_is_connected false);
         liftW (logger INFO (Lit "Database connections closed"))
       else ret tt);
  do_ match exc with
      | Some e => liftW (logger ERROR (FmtExn "Exception occurred: " e))
      | None => ret tt
      end;
  ret false.

(** ** Worlds and objects to run the class on *)

(** [pd.to_datetime] that accepts datetimes and missing values. *)
Definition to_datetime_strict (vs : list PyVal) : Result (list PyVal) :=
  if forallb (fun v => match v with PyDatetime _ | PyNone => true | _ => false end) vs
  then Ok vs
  else Raise (mkExn ValueError "Unknown datetime string format").

(** No server answers; the local store is there but empty. *)
Definition world_upstream_down : World :=
  mkWorld [] (fun _ => false)
          (fun _ => Raise (mkExn OperationalError "connection is closed"))
          true true None false 1700000000 [] [] [].

(** A server that knows its version and has no data. *)
Definition answer_empty (st : Statement) : Result DataFrame :=
  if String.eqb (sql st) query_version
  then Ok (mkDataFrame ["version"] [[PyStr "Microsoft SQL Server 2019"]])
  else if String.eqb (sql st) query_current_values
  then Ok (mkDataFrame [] [])
  else Ok (mkDataFrame ["timestamp"] []).

Definition world_upstream_up : World :=
  mkWorld [("MSSQL_TRUSTED_CONNECTION", "YES")] (fun _ => true) answer_empty
          true true None false 1700000000 [] [] [].

(** The object [DatabaseConnection()] yields while the server is down. *)
Definition self_limited : DatabaseConnection :=
  mkDatabaseConnection false false "localhost" "dbreactor" "dbreactor" ""
    "{ODBC Driver 17 for SQL Server}" "1433" "no"
    (Some "DRIVER={ODBC Driver 17 for SQL Server};SERVER=localhost,1433;DATABASE=dbreactor;UID=dbreactor;PWD=;")
    (Some "DRIVER={ODBC Driver 17 for SQL Server};SERVER=localhost,1433;DATABASE=dbreactor;UID=dbreactor;PWD=;")
    (Some "data/dashboard.db").

(** ** Notions the properties are stated with *)

(** The statements a call adds to those already sent: [st] when the
    object has an engine and the server accepts its connection,
    nothing otherwise. *)
Definition when_connected (self : DatabaseConnection) (w : World)
    (st : Statement) : list Statement :=
  match reactor_engine self with
  | Some cs => if upstream_accepts w cs then [st] else []
  | None => []
  end.

(** A computation is quiet when it sends nothing upstream. *)
Definition quiet {A : Type} (m : M (S := World) A) : Prop :=
  forall w, issued (snd (m w)) = issued w.

(** The dict [get_feed_parameters] builds from a row. *)
Definition feed_record (feed_type : string) (toc glucose_conc : option Float)
    (timestamp : Z) : PyVal :=
  PyDict [("feed_type", PyStr feed_type);
          ("toc_value", of_float toc);
          ("glucose_concentration", of_float glucose_conc);
          ("timestamp", PyStr (sqlite_datetime timestamp))].


(** A local store that holds one row, stamped a day ago. *)
Definition world_with_earlier_row : World :=
  mkWorld [] (fun _ => false)
          (fun _ => Raise (mkExn OperationalError "connection is closed"))
          true true
          (Some [mkFeedRow 1 "control" (Some (FNum 10)) (Some (FNum 20)) 1699913600])
          true 1700000000 [] [] [].

End Persistence.

(* ================================================================== *)
(** * The mock telemetry source and the hook that consumes it *)
(* ================================================================== *)

Module Mock.

Local Open Scope R_scope.

(** The five results of [Math.random()] that one call of
    [generateMockMetrics] uses, in the order of the calls. *)
Record Randoms : Type := mkRandoms {
  rnd_pv : R;
  rnd_do : R;
  rnd_do_t : R;
  rnd_ph : R;
  rnd_ph_t : R
}.

(** [Math.random()] returns a number in [0,1). *)
Definition in_unit_interval (rnd : Randoms) : Prop :=
  (0 <= rnd_pv rnd < 1) /\ (0 <= rnd_do rnd < 1) /\ (0 <= rnd_do_t rnd < 1)
  /\ (0 <= rnd_ph rnd < 1) /\ (0 <= rnd_ph_t rnd < 1).

(** [generateMockMetrics] (utils/mockData.ts), given the value of
    [Date.now()] and the random numbers it draws.  The arithmetic is
    that of the real numbers: a value of the program differs from the
    one here by the rounding of a few binary64 operations. *)
Definition generateMockMetrics (now : Z) (rnd : Randoms)
  : Metrics.RealTimeMetrics :=
  let sinValue := sin (IZR now / 10000) in
  Metrics.mkRealTimeMetrics
    (0.5 + 0.1 * sinValue)
    (0.48 + 0.1 * sinValue + rnd_pv rnd * 0.02)
    (800 + 100 * sinValue + rnd_do rnd * 20)
    (37 + rnd_do_t rnd * 0.2)
    (7.0 + 0.2 * sinValue + rnd_ph rnd * 0.1)
    (37 + rnd_ph_t rnd * 0.2).

(** [METRIC_RANGES] (types/system.ts). *)
Definition DO_VALUE_min : R := 0.
Definition DO_VALUE_max : R := 100.
Definition PH_VALUE_min : R := 0.
Definition PH_VALUE_max : R := 14.
Definition TEMPERATURE_min : R := 0.
Definition TEMPERATURE_max : R := 50.

(** The subscribers of the mock manager: [handleData] of the
    [useWebSocket] hook, which [useCallback] keeps the same function
    from render to render, and any other callback. *)
Inductive Callback : Type :=
| HandleData
| Other (n : nat).

Definition Callback_eqb (a b : Callback) : bool :=
  match a, b with
  | HandleData, HandleData => true
  | Other n, Other m => Nat.eqb n m
  | _, _ => false
  end.

(** What one emission reads from outside: the clock and the random
    numbers of [generateMockMetrics], and the clock readings of
    [calculateMetrics] when [handleData] runs. *)
Record Pulse : Type := mkPulse {
  pulse_now : Z;
  pulse_rnd : Randoms;
  pulse_clk : Metrics.Clock
}.

(** The mock manager's fields, the window's interval timers, the
    [metrics] field of the store, and the frames handed to the other
    subscribers. *)
Record App : Type := mkApp {
  callbacks : list Callback;
  intervalId : option nat;
  intervals : list nat;         (* the intervals set and not cleared *)
  next_handle : nat;            (* what setInterval returns next *)
  metrics : option Metrics.Metrics;
  received : list (nat * Metrics.RealTimeMetrics)
}.

Definition updateInterval : Z := 1000.

(** A page that has just loaded: no subscriber, no interval, and
    [metrics: null] in the store. *)
Definition initial : App := mkApp [] None [] 1 None [].

(** [setMetrics] of the store. *)
Definition setMetrics (m : Metrics.Metrics) (s : App) : App :=
  mkApp (callbacks s) (intervalId s) (intervals s) (next_handle s) (Some m)
        (received s).

(** [handleData] of the hook. *)
Definition handleData (clk : Metrics.Clock) (data : Metrics.RealTimeMetrics)
    (s : App) : App :=
  setMetrics (Metrics.calculateMetrics clk data) s.

(** One call of a subscriber. *)
Definition call (clk : Metrics.Clock) (data : Metrics.RealTimeMetrics)
    (s : App) (cb : Callback) : App :=
  match cb with
  | HandleData => handleData clk data s
  | Other n =>
      mkApp (callbacks s) (intervalId s) (intervals s) (next_handle s)
            (metrics s) (received s ++ [(n, data)])
  end.

(** [callbacks.forEach(callback => callback(data))], over the
    subscribers of the moment, in insertion order. *)
Definition notifyCallbacks (clk : Metrics.Clock)
    (data : Metrics.RealTimeMetrics) (s : App) : App :=
  fold_left (call clk data) (callbacks s) s.

Definition emitData (p : Pulse) (s : App) : App :=
  notifyCallbacks (pulse_clk p)
    (generateMockMetrics (pulse_now p) (pulse_rnd p)) s.

(** [connect]: nothing when an interval is set; otherwise one emission
    at once, and an interval for the following ones. *)
Definition connect (p : Pulse) (s : App) : App :=
  match intervalId s with
  | Some _ => s
  | None =>
      let s' := emitData p s in
      mkApp (callbacks s') (Some (next_handle s'))
            (intervals s' ++ [next_handle s']) (S (next_handle s'))
            (metrics s') (received s')
  end.

Definition subscribe (cb : Callback) (s : App) : App :=
  if existsb (Callback_eqb cb) (callbacks s) then s
  else mkApp (callbacks s ++ [cb]) (intervalId s) (intervals s)
             (next_handle s) (metrics s) (received s).

(** The function [subscribe] returns. *)
Definition unsubscribe (cb : Callback) (s : App) : App :=
  mkApp (List.filter (fun c => negb (Callback_eqb c cb)) (callbacks s))
        (intervalId s) (intervals s) (next_handle s) (metrics s) (received s).

(** [disconnect]: [clearInterval] on the interval held, if any. *)
Definition disconnect (s : App) : App :=
  match intervalId s with
  | Some id =>
      mkApp (callbacks s) None
            (List.filter (fun i => negb (Nat.eqb i id)) (intervals s))
            (next_handle s) (metrics s) (received s)
  | None => s
  end.

(** The effect of [useWebSocket] when the component mounts, and its
    cleanup when the component unmounts. *)
Definition mount (p : Pulse) (s : App) : App :=
  subscribe HandleData (connect p s).

Definition unmount (s : App) : App :=
  disconnect (unsubscribe HandleData s).

(** What happens to the page: the hook mounts or unmounts, some other
    code calls the manager, or the window runs an interval. *)
Inductive Event : Type :=
| Mount (p : Pulse)
| Unmount
| CallConnect (p : Pulse)
| CallDisconnect
| CallSubscribe (cb : Callback)
| CallUnsubscribe (cb : Callback)
| Tick (id : nat) (p : Pulse).

Definition step (e : Event) (s : App) : App :=
  match e with
  | Mount p => mount p s
  | Unmount => unmount s
  | CallConnect p => connect p s
  | CallDisconnect => disconnect s
  | CallSubscribe cb => subscribe cb s
  | CallUnsubscribe cb => unsubscribe cb s
  | Tick id p =>
      if existsb (Nat.eqb id) (intervals s) then emitData p s else s
  end.

Definition run (es : list Event) (s : App) : App :=
  fold_left (fun s e => step e s) es s.

(** The manager holds the one interval that is set, if any. *)
Definition holds_its_interval (s : App) : Prop :=
  intervals s = match intervalId s with Some id => [id] | None => [] end.


End Mock.

(* ================================================================== *)
(** * The chart's window of points *)
(* ================================================================== *)

Module Chart.

(** A point of the chart (components/charts/MetricsChart.tsx). *)
Record Point : Type := mkPoint {
  timestamp : string;
  doSaturation : R;
  dropRate : R;
  our : R;
  temperature : R
}.

Definition point_of (m : Metrics.Metrics) : Point :=
  mkPoint (Metrics.timestamp m) (Metrics.do_saturation m) (Metrics.drop_rate m)
          (Metrics.our m) (Metrics.temperature m).

(** [l.slice(-n)], for [n] positive: the last [n] elements, or all of
    them when there are fewer. *)
Definition slice_last {A : Type} (n : nat) (l : list A) : list A :=
  drop (length l - n) l.

(** The updater given to [setData] when [metrics] changes. *)
Definition push (prevData : list Point) (m : Metrics.Metrics) : list Point :=
  slice_last 60 (prevData ++ [point_of m]).

End Chart.

(* ================================================================== *)
(** * Feature flags *)
(* ================================================================== *)

Module FeatureFlags.

(** [Features] (types/system.ts). *)
Record Features : Type := mkFeatures {
  data_collection : bool;
  real_time_metrics : bool;
  visualization : bool;
  feed_tracking : bool;
  export : bool;
  ai_insights : bool
}.

(** [keyof Features]. *)
Inductive Key : Type :=
| K_data_collection | K_real_time_metrics | K_visualization
| K_feed_tracking | K_export | K_ai_insights.

Definition Key_eqb (a b : Key) : bool :=
  match a, b with
  | K_data_collection, K_data_collection
  | K_real_time_metrics, K_real_time_metrics
  | K_visualization, K_visualization
  | K_feed_tracking, K_feed_tracking
  | K_export, K_export
  | K_ai_insights, K_ai_insights => true
  | _, _ => false
  end.

(** The registry's [features] field as the constructor leaves it. *)
Definition defaults : Features :=
  mkFeatures true true true true true false.

(** [isEnabled]: [this.features[feature]]. *)
Definition isEnabled (feature : Key) (features : Features) : bool :=
  match feature with
  | K_data_collection => data_collection features
  | K_real_time_metrics => real_time_metrics features
  | K_visualization => visualization features
  | K_feed_tracking => feed_tracking features
  | K_export => export features
  | K_ai_insights => ai_insights features
  end.

(** [setFeature]: [this.features[feature] = enabled]. *)
Definition setFeature (feature : Key) (enabled : bool) (f : Features)
  : Features :=
  match feature with
  | K_data_collection =>
      mkFeatures enabled (real_time_metrics f) (visualization f)
                 (feed_tracking f) (export f) (ai_insights f)
  | K_real_time_metrics =>
      mkFeatures (data_collection f) enabled (visualization f)
                 (feed_tracking f) (export f) (ai_insights f)
  | K_visualization =>
      mkFeatures (data_collection f) (real_time_metrics f) enabled
                 (feed_tracking f) (export f) (ai_insights f)
  | K_feed_tracking =>
      mkFeatures (data_collection f) (real_time_metrics f) (visualization f)
                 enabled (export f) (ai_insights f)
  | K_export =>
      mkFeatures (data_collection f) (real_time_metrics f) (visualization f)
                 (feed_tracking f) enabled (ai_insights f)
  | K_ai_insights =>
      mkFeatures (data_collection f) (real_time_metrics f) (visualization f)
                 (feed_tracking f) (export f) enabled
  end.

(** [getAllFeatures]: a copy of the field. *)
Definition getAllFeatures (f : Features) : Features :=
  mkFeatures (data_collection f) (real_time_metrics f) (visualization f)
             (feed_tracking f) (export f) (ai_insights f).

(** The registry together with the [features] field of the store
    (store/useStore.ts). *)
Record Flags : Type := mkFlags {
  registry : Features;
  store_features : Features
}.

(** When the store is created it takes a copy of the registry. *)
Definition created : Flags := mkFlags defaults (getAllFeatures defaults).

(** [updateFeatures] of the store, on the entries of its argument, each
    a key with a boolean: every entry goes to [setFeature], then the
    store takes a new copy of the registry. *)
Definition updateFeatures (entries : list (Key * bool)) (s : Flags) : Flags :=
  let r := fold_left (fun r kv => setFeature (fst kv) (snd kv) r) entries
                     (registry s) in
  mkFlags r (getAllFeatures r).

End FeatureFlags.

(* ================================================================== *)
(** * Notions the further properties are stated with *)
(* ================================================================== *)

Module TransportNotions.

Import Transport.

(** The delays of the linear back-off. *)
Definition delay_ok (d : Z) : Prop := d ∈ [1000; 2000; 3000; 4000; 5000]%Z.

(** What is left for automatic reconnection: the retries pending and
    those the counter still allows. *)
Definition budget (s : State) : nat :=
  length (timers s) + (maxReconnectAttempts - reconnectAttempts s).

(** The states of a connection in the design document.  The class has
    no field for them; this is what the socket it holds shows.  Without
    a socket the manager is idle, before the first [connect] as after
    [disconnect]. *)
Inductive ConnectionState : Type := Idle | Connecting | Connected | Disconnected.

Definition connection_state (s : State) : ConnectionState :=
  match ws s with
  | Some h =>
      match sockets s !! h with
      | Some k =>
          match readyState k with
          | CONNECTING => Connecting
          | OPEN => Connected
          | CLOSING | CLOSED => Disconnected
          end
      | None => Idle
      end
  | None => Idle
  end.

(** Five connections in a row that fail, each closed before it has
    opened: the one [connect] makes, then the one each retry makes. *)
Definition five_failed_connections : list Event :=
  [CallConnect reconnectConfig; SocketCloses 0;
   TimerFires 0; SocketCloses 1;
   TimerFires 0; SocketCloses 2;
   TimerFires 0; SocketCloses 3;
   TimerFires 0; SocketCloses 4].

(** Six calls of [connect] before any socket has opened, the open of
    the last socket, and the failure of the five others. *)
Definition five_failures_beside_an_open_socket : list Event :=
  [CallConnect reconnectConfig; CallConnect reconnectConfig;
   CallConnect reconnectConfig; CallConnect reconnectConfig;
   CallConnect reconnectConfig; CallConnect reconnectConfig;
   SocketOpens 5;
   SocketCloses 0; SocketCloses 1; SocketCloses 2; SocketCloses 3;
   SocketCloses 4].

End TransportNotions.

Module PersistenceNotions.

Import Persistence.
Local Open Scope string_scope.

(** Is the attribute set? *)
Definition is_Some_b {A : Type} (o : option A) : bool :=
  match o with Some _ => true | None => false end.

(** What holds of an object the constructor has returned. *)
Definition constructed (w : World) (self : DatabaseConnection) : Prop :=
  conn_str self = Some (_build_connection_string self)
  /\ reactor_engine self = conn_str self
  /\ (is_connected self = true ->
      data_dir_ok w = true
      /\ dashboard_engine self = Some "data/dashboard.db"
      /\ upstream_accepts w (_build_connection_string self) = true).

(** A local store with three rows, the second one the latest. *)
Definition world_with_three_rows : World :=
  mkWorld [] (fun _ => false)
          (fun _ => Raise (mkExn OperationalError "connection is closed"))
          true true
          (Some [mkFeedRow 1 "control" (Some (FNum 10)) (Some (FNum 20)) 1699913600;
                 mkFeedRow 2 "experimental" (Some (FNum 3)) None 1699999000;
                 mkFeedRow 3 "control" None None 1699950000])
          true 1700000000 [] [] [].

(** A dict that is empty or has the six groups of the current
    values. *)
Definition current_values_shape (v : PyVal) : Prop :=
  exists items,
    v = PyDict items
    /\ (items = []
        \/ map fst items = ["mfc1"; "do"; "ph"; "weights"; "pump"; "operation"]).

(** Every value a computation returns has the shape. *)
Definition returns_shape (m : M (S := World) PyVal) : Prop :=
  forall w v w', m w = (Ok v, w') -> current_values_shape v.

End PersistenceNotions.

(* ================================================================== *)
(** * Properties of the dates *)
(* ================================================================== *)

Module IsoDateFacts.

Import IsoDate.
Local Open Scope Z_scope.

Example toISOString_epoch :
  toISOString 0 = "1970-01-01T00:00:00.000Z"%string.
Proof. reflexivity. Qed.

Example toISOString_2024_leap_day :
  toISOString 1709210096789 = "2024-02-29T12:34:56.789Z"%string.
Proof. vm_compute. reflexivity. Qed.

Example toISOString_before_epoch :
  toISOString (-1) = "1969-12-31T23:59:59.999Z"%string.
Proof. vm_compute. reflexivity. Qed.

End IsoDateFacts.

(* ================================================================== *)
(** * Properties of the derivation step *)
(* ================================================================== *)

Module MetricsFacts.

Import Metrics.
Local Open Scope R_scope.

(** ** do_saturation *)

Lemma do_saturation_eq clk data :
  do_saturation (calculateMetrics clk data)
  = Reactor_1_DO_Value_PPM data / 10.
Proof. simpl. field. Qed.

Example do_saturation_nominal clk :
  do_saturation (calculateMetrics clk frame_nominal) = 80.
Proof. rewrite do_saturation_eq. simpl. lra. Qed.

Example do_saturation_high clk :
  do_saturation (calculateMetrics clk frame_high_DO) = 200.
Proof. rewrite do_saturation_eq. simpl. lra. Qed.

Example do_saturation_negative clk :
  do_saturation (calculateMetrics clk frame_negative_DO) = - (1 / 2).
Proof. rewrite do_saturation_eq. simpl. lra. Qed.

(** C1, as stated, fails: a DO reading of 2000 PPM yields a
    [do_saturation] of 200, which is passed through: no clamp is applied
    and the value is outside [0,100]. *)
Lemma C1_do_saturation_not_clamped :
  ~ (0 <= do_saturation (calculateMetrics (frozen 0) frame_high_DO) <= 100).
Proof. rewrite do_saturation_high. lra. Qed.

(** C1, amended: [do_saturation] is the DO reading rescaled from
    [0,1000] PPM to percent, so it lies in [0,100] for every frame whose
    DO reading lies in [0,1000]. *)
Theorem C1_do_saturation_in_range_for_DO_in_scale clk data
    (Hlo : 0 <= Reactor_1_DO_Value_PPM data)
    (Hhi : Reactor_1_DO_Value_PPM data <= 1000) :
  0 <= do_saturation (calculateMetrics clk data) <= 100.
Proof. rewrite do_saturation_eq. lra. Qed.

Lemma C1_do_saturation_in_range_witness :
  0 <= do_saturation (calculateMetrics (frozen 0) frame_nominal) <= 100.
Proof.
  apply (C1_do_saturation_in_range_for_DO_in_scale (frozen 0) frame_nominal);
    simpl; lra.
Defined.

(** The range is exact: outside [0,1000] PPM the output leaves
    [0,100]. *)
Lemma do_saturation_in_range_iff clk data :
  0 <= do_saturation (calculateMetrics clk data) <= 100
  <-> 0 <= Reactor_1_DO_Value_PPM data <= 1000.
Proof. rewrite do_saturation_eq. lra. Qed.

(** ** timestamp *)

Lemma timestamp_eq clk data :
  timestamp (calculateMetrics clk data) = IsoDate.toISOString (now_date clk).
Proof. reflexivity. Qed.

(** C8, as stated, fails: the timestamp is no function of the frame.
    One and the same frame processed at two different times gets two
    different timestamps, so no reading [capture] of a capture time off
    the frame can agree with both. *)
Lemma C8_timestamp_is_not_capture_time :
  ~ exists capture : RealTimeMetrics -> string,
      forall clk data, timestamp (calculateMetrics clk data) = capture data.
Proof.
  intros [capture H].
  pose proof (H (frozen 0) frame_nominal) as H0.
  pose proof (H (frozen 1000) frame_nominal) as H1.
  rewrite <- H1 in H0. vm_compute in H0. discriminate H0.
Qed.

(** C8, amended: the timestamp is the ISO-8601 rendering of the clock
    read by [new Date()] while the frame is processed, whatever the
    frame. *)
Theorem C8_timestamp_is_processing_time clk data data' :
  timestamp (calculateMetrics clk data) = IsoDate.toISOString (now_date clk)
  /\ timestamp (calculateMetrics clk data) = timestamp (calculateMetrics clk data').
Proof. split; reflexivity. Qed.

Example timestamp_nominal_at_epoch :
  timestamp (calculateMetrics (frozen 0) frame_nominal)
  = "1970-01-01T00:00:00.000Z"%string.
Proof. reflexivity. Qed.

Example timestamp_nominal_one_second_later :
  timestamp (calculateMetrics (frozen 1000) frame_nominal)
  = "1970-01-01T00:00:01.000Z"%string.
Proof. vm_compute. reflexivity. Qed.

(** ** recovery_time, our, sour *)

Lemma Rabs_sin_le_1 x : Rabs (sin x) <= 1.
Proof. apply Rabs_le. pose proof (SIN_bound x). lra. Qed.

Lemma recovery_time_bounds clk data :
  0 <= recovery_time (calculateMetrics clk data) <= 10.
Proof.
  simpl. split; [apply Rabs_pos |].
  rewrite Rabs_mult, (Rabs_pos_eq 10) by lra.
  pose proof (Rabs_sin_le_1 (IZR (now_recovery clk) / 5000)). lra.
Qed.

(** C10: [recovery_time], [our] and [sour] are functions of the clock
    alone (two frames processed under the same clock readings get the
    same three values), [recovery_time] lies in [0,10], and [our] and
    [sour] are non-negative. *)
Theorem C10_simulated_metrics_ignore_frame clk data data' :
  (recovery_time (calculateMetrics clk data)
     = recovery_time (calculateMetrics clk data')
   /\ our (calculateMetrics clk data) = our (calculateMetrics clk data')
   /\ sour (calculateMetrics clk data) = sour (calculateMetrics clk data'))
  /\ 0 <= recovery_time (calculateMetrics clk data) <= 10
  /\ 0 <= our (calculateMetrics clk data)
  /\ 0 <= sour (calculateMetrics clk data).
Proof.
  split; [repeat split |].
  split; [apply recovery_time_bounds |].
  split; simpl; apply Rabs_pos.
Qed.

(** The simulated values do not even need the clock to stand still
    between frames to stay in range: with the sine between -1 and 1 the
    arguments of [Math.abs] for [our] and [sour] are already positive. *)
Lemma our_sour_bounds clk data :
  0.4 <= our (calculateMetrics clk data) <= 0.6
  /\ 0.15 <= sour (calculateMetrics clk data) <= 0.25.
Proof.
  simpl.
  pose proof (SIN_bound (IZR (now_our clk) / 7000)).
  pose proof (SIN_bound (IZR (now_sour clk) / 9000)).
  rewrite !Rabs_pos_eq by lra. lra.
Qed.

End MetricsFacts.

(* ================================================================== *)
(** * Properties of the transport manager *)
(* ================================================================== *)

Module TransportFacts.

Import Transport.
Import TransportNotions.

(** ** The attempt counter *)

Lemma handleDisconnect_attempts s :
  reconnectAttempts (handleDisconnect s)
  = if (reconnectAttempts s <? maxReconnectAttempts)%nat
    then S (reconnectAttempts s) else reconnectAttempts s.
Proof.
  unfold handleDisconnect.
  destruct (reconnectAttempts s <? maxReconnectAttempts)%nat; reflexivity.
Qed.

Lemma handleDisconnect_exhausted s :
  (maxReconnectAttempts <= reconnectAttempts s)%nat -> handleDisconnect s = s.
Proof.
  intros H. unfold handleDisconnect.
  destruct (Nat.ltb_spec (reconnectAttempts s) maxReconnectAttempts); [lia | reflexivity].
Qed.

Lemma handleDisconnect_iter_attempts n s :
  reconnectAttempts (Nat.iter n handleDisconnect s)
  = if (reconnectAttempts s <=? maxReconnectAttempts)%nat
    then Nat.min (reconnectAttempts s + n) maxReconnectAttempts
    else reconnectAttempts s.
Proof.
  induction n as [| n IH]; simpl.
  - destruct (Nat.leb_spec (reconnectAttempts s) maxReconnectAttempts); lia.
  - rewrite handleDisconnect_attempts, IH.
    destruct (Nat.leb_spec (reconnectAttempts s) maxReconnectAttempts);
      match goal with
      | |- context [(?a <? ?b)%nat] => destruct (Nat.ltb_spec a b)
      end; lia.
Qed.

Lemma handleDisconnect_timers s :
  timers (handleDisconnect s)
  = if (reconnectAttempts s <? maxReconnectAttempts)%nat
    then timers s ++ [(reconnectTimeout * Z.of_nat (S (reconnectAttempts s)))%Z]
    else timers s.
Proof.
  unfold handleDisconnect.
  destruct (reconnectAttempts s <? maxReconnectAttempts)%nat; reflexivity.
Qed.

Lemma connect_attempts config s :
  reconnectAttempts (connect config s) = reconnectAttempts s.
Proof. unfold connect. destruct (held_open s); reflexivity. Qed.

Lemma connect_timers config s : timers (connect config s) = timers s.
Proof. unfold connect. destruct (held_open s); reflexivity. Qed.

Lemma onopen_attempts s : reconnectAttempts (onopen s) = 0.
Proof. reflexivity. Qed.

(** The linear back-off: from a counter of 0, five failures arm five
    timers, 1 s to 5 s. *)
Example five_failures_from_zero :
  let s5 := Nat.iter 5 handleDisconnect (connect reconnectConfig initial) in
  reconnectAttempts s5 = 5
  /\ timers s5 = [1000; 2000; 3000; 4000; 5000]%Z.
Proof. split; reflexivity. Qed.

Lemma handleDisconnect_ws s : ws (handleDisconnect s) = ws s.
Proof.
  unfold handleDisconnect.
  destruct (reconnectAttempts s <? maxReconnectAttempts)%nat; reflexivity.
Qed.

Lemma handleDisconnect_sockets s : sockets (handleDisconnect s) = sockets s.
Proof.
  unfold handleDisconnect.
  destruct (reconnectAttempts s <? maxReconnectAttempts)%nat; reflexivity.
Qed.

Lemma handleDisconnect_iter_ws n s :
  ws (Nat.iter n handleDisconnect s) = ws s.
Proof.
  induction n as [| n IH]; [reflexivity |].
  change (Nat.iter (S n) handleDisconnect s)
    with (handleDisconnect (Nat.iter n handleDisconnect s)).
  rewrite handleDisconnect_ws. exact IH.
Qed.

Lemma handleDisconnect_iter_sockets n s :
  sockets (Nat.iter n handleDisconnect s) = sockets s.
Proof.
  induction n as [| n IH]; [reflexivity |].
  change (Nat.iter (S n) handleDisconnect s)
    with (handleDisconnect (Nat.iter n handleDisconnect s)).
  rewrite handleDisconnect_sockets. exact IH.
Qed.

(** The retries a run of failures arms: one for each attempt the
    counter still allowed, each waiting a second longer than the one
    before; those pending before stay pending. *)
Lemma handleDisconnect_iter_timers n s :
  timers (Nat.iter n handleDisconnect s)
  = timers s
    ++ map (fun i => (reconnectTimeout * Z.of_nat i)%Z)
         (seq (S (reconnectAttempts s))
              (Nat.min n (maxReconnectAttempts - reconnectAttempts s))).
Proof.
  induction n as [| n IH].
  - simpl. rewrite app_nil_r. reflexivity.
  - change (Nat.iter (S n) handleDisconnect s)
      with (handleDisconnect (Nat.iter n handleDisconnect s)).
    rewrite handleDisconnect_timers, handleDisconnect_iter_attempts, IH.
    destruct (Nat.leb_spec (reconnectAttempts s) maxReconnectAttempts) as [Hle | Hgt].
    + destruct (Nat.ltb_spec
                  (Nat.min (reconnectAttempts s + n) maxReconnectAttempts)
                  maxReconnectAttempts) as [Hlt | Hge].
      * replace (Nat.min n (maxReconnectAttempts - reconnectAttempts s))
          with n by lia.
        replace (Nat.min (S n) (maxReconnectAttempts - reconnectAttempts s))
          with (S n) by lia.
        replace (Nat.min (reconnectAttempts s + n) maxReconnectAttempts)
          with (reconnectAttempts s + n)%nat by lia.
        rewrite seq_S, map_app, <- app_assoc. reflexivity.
      * replace (Nat.min (S n) (maxReconnectAttempts - reconnectAttempts s))
          with (Nat.min n (maxReconnectAttempts - reconnectAttempts s)) by lia.
        reflexivity.
    + destruct (Nat.ltb_spec (reconnectAttempts s) maxReconnectAttempts);
        [lia |].
      replace (Nat.min (S n) (maxReconnectAttempts - reconnectAttempts s))
        with (Nat.min n (maxReconnectAttempts - reconnectAttempts s)) by lia.
      reflexivity.
Qed.

(** C2, as stated, fails in each of its parts.  After five connections
    in a row have failed the counter is at 5, yet the retry armed by the
    fifth failure is pending and, when it runs, constructs a sixth
    socket: the manager is connecting again.  Five failures in a row of
    sockets the manager does not hold leave it connected, with the
    counter at 5.  And a call of [connect] leaves the counter at 5. *)
Lemma C2_five_failures_counterexample :
  let s := run parse_keyword never_throws five_failed_connections initial in
  let s' := step parse_keyword never_throws (TimerFires 0) s in
  let t := run parse_keyword never_throws five_failures_beside_an_open_socket
             initial in
  reconnectAttempts s = 5 /\ timers s = [5000]%Z
  /\ length (sockets s) = 5 /\ length (sockets s') = 6
  /\ connection_state s' = Connecting
  /\ reconnectAttempts t = 5 /\ connection_state t = Connected
  /\ reconnectAttempts (connect reconnectConfig s) <> 0.
Proof. vm_compute. repeat split. discriminate. Qed.

(** ** Idempotence of [connect] *)

Lemma connect_constructs config s :
  held_open s = false ->
  ws (connect config s) = Some (length (sockets s))
  /\ sockets (connect config s)
     = sockets s ++ [mkWebSocket (wsEndpoint config) CONNECTING].
Proof. intros H. unfold connect. rewrite H. split; reflexivity. Qed.

Lemma connect_noop_iff config s :
  connect config s = s <-> held_open s = true.
Proof.
  split.
  - intros H. destruct (held_open s) eqn:E; [reflexivity |].
    destruct (connect_constructs config s E) as [_ Hs].
    rewrite H in Hs. apply (f_equal length) in Hs.
    rewrite length_app in Hs. simpl in Hs. lia.
  - intros H. unfold connect. rewrite H. reflexivity.
Qed.

(** C3, as stated, fails while connecting: a second [connect] before
    the first socket has opened constructs a second socket and leaves
    the first one as it is, so that two connections are live. *)
Lemma C3_connect_while_connecting_opens_second_socket :
  let s1 := connect reconnectConfig initial in
  let s2 := connect reconnectConfig s1 in
  s2 <> s1 /\ live_sockets s1 = 1 /\ live_sockets s2 = 2.
Proof. vm_compute. repeat split; discriminate. Qed.

(** Both sockets then open, and a frame arriving on the one the
    manager no longer holds is dispatched all the same. *)
Example orphan_socket_still_dispatches :
  let s :=
    run parse_keyword never_throws
      [CallSubscribe 7; CallConnect reconnectConfig;
       CallConnect reconnectConfig; SocketOpens 0; SocketOpens 1;
       SocketMessage 0 "true"] initial in
  ws s = Some 1 /\ live_sockets s = 2 /\ delivered s = [(7, JBool true)].
Proof. vm_compute. repeat split. Qed.

(** C3, amended: [connect] is a no-op when the socket the manager holds
    is open. *)
Theorem C3_connect_is_noop_when_open (config : SystemConfig) (s : State)
    (Hopen : held_open s = true) :
  connect config s = s.
Proof. apply connect_noop_iff, Hopen. Qed.

Lemma C3_connect_is_noop_when_open_witness :
  connect reconnectConfig connected = connected.
Proof.
  apply (C3_connect_is_noop_when_open reconnectConfig connected).
  reflexivity.
Defined.

(** ** [disconnect] *)

Lemma disconnect_ws s : ws (disconnect s) = None.
Proof. unfold disconnect. destruct (ws s) eqn:E; [reflexivity | exact E]. Qed.

Lemma disconnect_timers s : timers (disconnect s) = timers s.
Proof. unfold disconnect. destruct (ws s); reflexivity. Qed.

Lemma disconnect_attempts s :
  reconnectAttempts (disconnect s) = reconnectAttempts s.
Proof. unfold disconnect. destruct (ws s); reflexivity. Qed.

Lemma disconnect_sockets_length s :
  length (sockets (disconnect s)) = length (sockets s).
Proof.
  unfold disconnect. destruct (ws s); [| reflexivity].
  simpl. apply length_alter.
Qed.

Lemma held_open_no_ws s : ws s = None -> held_open s = false.
Proof. intros H. unfold held_open. rewrite H. reflexivity. Qed.

(** C4, as stated, fails: a retry armed by a failure before
    [disconnect] runs after it and constructs a socket, with no call of
    [connect] in between. *)
Lemma C4_timer_armed_before_disconnect_still_reconnects :
  let s := run parse_keyword never_throws
             [CallConnect reconnectConfig; SocketError 0; CallDisconnect] initial in
  let s' := step parse_keyword never_throws (TimerFires 0) s in
  ws s = None /\ length (sockets s) = 1
  /\ ws s' = Some 1 /\ length (sockets s') = 2
  /\ sockets s' !! 1 = Some (mkWebSocket "ws://localhost:8050/ws" CONNECTING).
Proof. vm_compute. repeat split. Qed.

(** The [close] event of the socket [disconnect] released arms a retry
    of its own. *)
Example close_after_disconnect_arms_retry :
  let s := run parse_keyword never_throws
             [CallConnect reconnectConfig; SocketOpens 0; CallDisconnect;
              SocketCloses 0] initial in
  ws s = None /\ reconnectAttempts s = 1 /\ timers s = [1000%Z].
Proof. vm_compute. repeat split. Qed.

Section Dispatch.

Variable JSON_parse : string -> option JsValue.
Variable throws : WebSocketCallback -> JsValue -> bool.

(** C4, amended: [disconnect] lets go of the socket it holds, after
    calling [close] on it, and changes neither the pending timers nor
    the attempt counter; any timer pending at that point, when it runs
    afterwards, constructs a new socket, which the manager then holds. *)
Theorem C4_disconnect_releases_socket_but_keeps_timers (s : State) :
  ws (disconnect s) = None
  /\ (forall h, ws s = Some h ->
        sockets (disconnect s) = alter WebSocket_close h (sockets s))
  /\ timers (disconnect s) = timers s
  /\ reconnectAttempts (disconnect s) = reconnectAttempts s
  /\ (forall k d, timers s !! k = Some d ->
        let s' := step JSON_parse throws (TimerFires k) (disconnect s) in
        ws s' = Some (length (sockets s))
        /\ sockets s' !! length (sockets s)
           = Some (mkWebSocket (wsEndpoint reconnectConfig) CONNECTING)).
Proof.
  split; [apply disconnect_ws |].
  split.
  { intros h Hh. unfold disconnect. rewrite Hh. reflexivity. }
  split; [apply disconnect_timers |].
  split; [apply disconnect_attempts |].
  intros k d Hk s'. subst s'. simpl.
  rewrite disconnect_timers, Hk. unfold reconnect.
  match goal with
  | |- context [connect reconnectConfig ?t] =>
      destruct (connect_constructs reconnectConfig t) as [Hws Hso]
  end.
  { apply held_open_no_ws. simpl. apply disconnect_ws. }
  rewrite Hws, Hso. simpl. rewrite disconnect_sockets_length.
  split; [reflexivity |].
  rewrite lookup_app_r by (rewrite disconnect_sockets_length; lia).
  rewrite disconnect_sockets_length, Nat.sub_diag. reflexivity.
Qed.

(** ** Inbound payloads *)

Lemma forEach_call_members v cbs :
  Forall (fun d => d.1 ∈ cbs /\ d.2 = v) (forEach_call throws v cbs).1.
Proof.
  induction cbs as [| cb rest IH]; simpl; [constructor |].
  destruct (throws cb v).
  - simpl. constructor; [| constructor]. split; [left | reflexivity].
  - destruct (forEach_call throws v rest) as [calls threw]. simpl in *.
    constructor; [split; [left | reflexivity] |].
    eapply Forall_impl; [exact IH |].
    intros d [Hd Hv]. split; [right; exact Hd | exact Hv].
Qed.


(** The calls made stop at the first subscriber that throws. *)
Lemma forEach_call_stops v before cb after :
  Forall (fun c => throws c v = false) before ->
  throws cb v = true ->
  forEach_call throws v (before ++ cb :: after)
  = (map (fun c => (c, v)) (before ++ [cb]), true).
Proof.
  intros Hb Hcb. induction Hb as [| c before Hc _ IH]; simpl.
  - rewrite Hcb. reflexivity.
  - rewrite Hc, IH. reflexivity.
Qed.

(** [onmessage] changes the console and the record of calls, and
    nothing else. *)
Lemma onmessage_frame data s :
  ws (onmessage JSON_parse throws data s) = ws s
  /\ reconnectAttempts (onmessage JSON_parse throws data s) = reconnectAttempts s
  /\ callbacks (onmessage JSON_parse throws data s) = callbacks s
  /\ sockets (onmessage JSON_parse throws data s) = sockets s
  /\ timers (onmessage JSON_parse throws data s) = timers s.
Proof.
  unfold onmessage, notifyCallbacks.
  destruct (JSON_parse data) as [v |]; [| repeat split].
  destruct (forEach_call throws v (callbacks s)) as [calls [|]]; repeat split.
Qed.

Lemma onmessage_delivered data s :
  delivered (onmessage JSON_parse throws data s)
  = delivered s
    ++ match JSON_parse data with
       | Some v => (forEach_call throws v (callbacks s)).1
       | None => []
       end.
Proof.
  unfold onmessage, notifyCallbacks.
  destruct (JSON_parse data) as [v |]; [| simpl; rewrite app_nil_r; reflexivity].
  destruct (forEach_call throws v (callbacks s)) as [calls [|]]; reflexivity.
Qed.

Lemma onmessage_console data s :
  console (onmessage JSON_parse throws data s)
  = match JSON_parse data with
    | Some v =>
        if (forEach_call throws v (callbacks s)).2
        then console s ++ [ErrorParsing data] else console s
    | None => console s ++ [ErrorParsing data]
    end.
Proof.
  unfold onmessage, notifyCallbacks.
  destruct (JSON_parse data) as [v |]; [| reflexivity].
  destruct (forEach_call throws v (callbacks s)) as [calls [|]]; reflexivity.
Qed.


(** ** Reachable states *)

Lemma step_attempts_bounded e s :
  (reconnectAttempts s <= maxReconnectAttempts)%nat ->
  (reconnectAttempts (step JSON_parse throws e s) <= maxReconnectAttempts)%nat.
Proof.
  assert (Hd : forall t, (reconnectAttempts t <= maxReconnectAttempts)%nat ->
            (reconnectAttempts (handleDisconnect t) <= maxReconnectAttempts)%nat).
  { intros t Ht. rewrite handleDisconnect_attempts.
    destruct (Nat.ltb_spec (reconnectAttempts t) maxReconnectAttempts); lia. }
  intros H. destruct e; simpl.
  - rewrite connect_attempts. exact H.
  - rewrite disconnect_attempts. exact H.
  - unfold subscribe. destruct (existsb _ _); exact H.
  - exact H.
  - destruct (socket_in CONNECTING h s); [simpl; lia | exact H].
  - destruct (socket_in OPEN h s); [| exact H].
    rewrite (proj1 (proj2 (onmessage_frame data s))). exact H.
  - destruct (sockets s !! h) as [k |]; [| exact H].
    destruct (live k); [| exact H]. apply Hd, H.
  - destruct (sockets s !! h) as [k |]; [| exact H].
    destruct (live k); [| exact H]. apply Hd, H.
  - destruct (timers s !! k); [| exact H].
    unfold reconnect. rewrite connect_attempts. exact H.
Qed.

Lemma run_attempts_bounded es s :
  (reconnectAttempts s <= maxReconnectAttempts)%nat ->
  (reconnectAttempts (run JSON_parse throws es s) <= maxReconnectAttempts)%nat.
Proof.
  revert s. induction es as [| e es IH]; intros s H; simpl; [exact H |].
  apply IH, step_attempts_bounded, H.
Qed.

(** Only the [open] event of a socket brings the counter down. *)
Lemma step_attempts_monotone e s :
  (forall h, e <> SocketOpens h) ->
  (reconnectAttempts s <= reconnectAttempts (step JSON_parse throws e s))%nat.
Proof.
  assert (Hd : forall t,
            (reconnectAttempts t <= reconnectAttempts (handleDisconnect t))%nat).
  { intros t. rewrite handleDisconnect_attempts.
    destruct (reconnectAttempts t <? maxReconnectAttempts)%nat; lia. }
  intros Hne. destruct e; simpl.
  - rewrite connect_attempts. lia.
  - rewrite disconnect_attempts. lia.
  - unfold subscribe. destruct (existsb _ _); simpl; lia.
  - lia.
  - destruct (Hne h eq_refl).
  - destruct (socket_in OPEN h s); [| lia].
    rewrite (proj1 (proj2 (onmessage_frame data s))). lia.
  - destruct (sockets s !! h) as [k |]; [| lia].
    destruct (live k); [| lia]. apply (Hd (console_add ErrorSocket s)).
  - destruct (sockets s !! h) as [k |]; [| lia].
    destruct (live k); [| lia]. apply (Hd (mark CLOSED h s)).
  - destruct (timers s !! k); [| lia].
    unfold reconnect. rewrite connect_attempts. simpl. lia.
Qed.

(** C2, amended: after [maxReconnectAttempts] failures in a row, from
    any state, the counter has reached the maximum (it is exactly the
    maximum unless it was above it before), and every further failure,
    through [onclose] or [onerror], arms no timer; the retries the
    failures have armed, one for each attempt the counter allowed, stay
    pending behind those pending before, and each of them, when it runs
    while the socket the manager holds is not open, constructs a
    socket.  The handler of a failure
    changes neither the socket the manager holds nor any socket, so
    that the state of the connection is as before; it is
    [Disconnected] when the socket that closes is the one the manager
    holds.  [connect] leaves the counter as it is; no call or event
    other than the [open] of a socket lowers it, and the [open] of a
    connecting socket sets it to 0. *)
Theorem C2_retries_stop_at_max_and_only_open_resets
    (s : State) (config : SystemConfig) :
  let s5 := Nat.iter maxReconnectAttempts handleDisconnect s in
  (maxReconnectAttempts <= reconnectAttempts s5)%nat
  /\ ((reconnectAttempts s <= maxReconnectAttempts)%nat ->
      reconnectAttempts s5 = maxReconnectAttempts)
  /\ handleDisconnect s5 = s5
  /\ onclose s5 = s5
  /\ timers (onerror s5) = timers s5
  /\ timers s5
     = timers s
       ++ map (fun i => (reconnectTimeout * Z.of_nat i)%Z)
            (seq (S (reconnectAttempts s))
                 (maxReconnectAttempts - reconnectAttempts s))
  /\ (forall k d, timers s5 !! k = Some d -> held_open s5 = false ->
      sockets (step JSON_parse throws (TimerFires k) s5)
      = sockets s5 ++ [mkWebSocket (wsEndpoint reconnectConfig) CONNECTING])
  /\ ws s5 = ws s
  /\ sockets s5 = sockets s
  /\ connection_state s5 = connection_state s
  /\ (forall h k, ws s = Some h -> sockets s !! h = Some k -> live k = true ->
      connection_state (step JSON_parse throws (SocketCloses h) s)
      = Disconnected)
  /\ reconnectAttempts (connect config s5) = reconnectAttempts s5
  /\ reconnectAttempts (onopen (connect config s5)) = 0
  /\ (forall e t, (forall h, e <> SocketOpens h) ->
      (reconnectAttempts t
       <= reconnectAttempts (step JSON_parse throws e t))%nat)
  /\ (forall h t, socket_in CONNECTING h t = true ->
      reconnectAttempts (step JSON_parse throws (SocketOpens h) t) = 0).
Proof.
  intros s5.
  assert (Hmax : (maxReconnectAttempts <= reconnectAttempts s5)%nat).
  { subst s5. rewrite handleDisconnect_iter_attempts.
    destruct (Nat.leb_spec (reconnectAttempts s) maxReconnectAttempts); lia. }
  assert (Hws : ws s5 = ws s) by apply handleDisconnect_iter_ws.
  assert (Hso : sockets s5 = sockets s) by apply handleDisconnect_iter_sockets.
  split; [exact Hmax |].
  split.
  { intros Hle. subst s5. rewrite handleDisconnect_iter_attempts.
    destruct (Nat.leb_spec (reconnectAttempts s) maxReconnectAttempts); lia. }
  split; [apply handleDisconnect_exhausted, Hmax |].
  split; [apply handleDisconnect_exhausted, Hmax |].
  split.
  { unfold onerror. rewrite handleDisconnect_exhausted; [reflexivity | exact Hmax]. }
  split.
  { subst s5. rewrite handleDisconnect_iter_timers.
    replace (Nat.min maxReconnectAttempts
               (maxReconnectAttempts - reconnectAttempts s))
      with (maxReconnectAttempts - reconnectAttempts s)%nat by lia.
    reflexivity. }
  split.
  { intros k d Hk Hclosed. cbn [step]. rewrite Hk. unfold reconnect, connect.
    match goal with
    | |- context [held_open ?t] => change (held_open t) with (held_open s5)
    end.
    rewrite Hclosed. reflexivity. }
  split; [exact Hws |].
  split; [exact Hso |].
  split.
  { unfold connection_state. rewrite Hws, Hso. reflexivity. }
  split.
  { intros h k Hh Hk Hlive. cbn [step]. rewrite Hk, Hlive.
    unfold onclose, connection_state.
    rewrite handleDisconnect_ws, handleDisconnect_sockets.
    cbn [mark ws sockets set_sockets]. rewrite Hh.
    rewrite list_lookup_alter, Hk, decide_True by reflexivity. reflexivity. }
  split; [apply connect_attempts |].
  split; [reflexivity |].
  split; [intros e t; apply step_attempts_monotone |].
  intros h t Hc. cbn [step]. rewrite Hc. reflexivity.
Qed.

(** Once the counter is at its maximum, no event other than the [open]
    of a socket arms a timer or moves the counter: the timers still
    pending run, and that is all. *)
Lemma step_exhausted e s :
  (maxReconnectAttempts <= reconnectAttempts s)%nat ->
  (forall h, e <> SocketOpens h) ->
  reconnectAttempts (step JSON_parse throws e s) = reconnectAttempts s
  /\ (length (timers (step JSON_parse throws e s)) <= length (timers s))%nat.
Proof.
  intros Hmax Hne. destruct e; simpl.
  - rewrite connect_attempts, connect_timers. split; [reflexivity | lia].
  - rewrite disconnect_attempts, disconnect_timers. split; [reflexivity | lia].
  - unfold subscribe. destruct (existsb _ _); simpl; split; (reflexivity || lia).
  - split; [reflexivity | lia].
  - destruct (Hne h eq_refl).
  - destruct (socket_in OPEN h s); [| split; [reflexivity | lia]].
    destruct (onmessage_frame data s) as (_ & Ha & _ & _ & Ht).
    rewrite Ha, Ht. split; [reflexivity | lia].
  - destruct (sockets s !! h) as [k |]; [| split; [reflexivity | lia]].
    destruct (live k); [| split; [reflexivity | lia]].
    unfold onerror. rewrite handleDisconnect_exhausted by exact Hmax.
    simpl. split; [reflexivity | lia].
  - destruct (sockets s !! h) as [k |]; [| split; [reflexivity | lia]].
    destruct (live k); [| split; [reflexivity | lia]].
    unfold onclose. rewrite handleDisconnect_exhausted by exact Hmax.
    simpl. split; [reflexivity | lia].
  - destruct (timers s !! k) as [d |] eqn:Hk; [| split; [reflexivity | lia]].
    unfold reconnect. rewrite connect_attempts, connect_timers. simpl.
    split; [reflexivity |].
    rewrite length_delete by (rewrite Hk; eauto). lia.
Qed.

Lemma run_exhausted es s :
  (maxReconnectAttempts <= reconnectAttempts s)%nat ->
  Forall (fun e => forall h, e <> SocketOpens h) es ->
  reconnectAttempts (run JSON_parse throws es s) = reconnectAttempts s
  /\ (length (timers (run JSON_parse throws es s)) <= length (timers s))%nat.
Proof.
  intros Hmax Hes. revert s Hmax.
  induction Hes as [| e es He _ IH]; intros s Hmax; simpl.
  - split; [reflexivity | lia].
  - destruct (step_exhausted e s Hmax He) as [Ha Ht].
    destruct (IH (step JSON_parse throws e s)) as [Ha' Ht']; [rewrite Ha; exact Hmax |].
    split; [rewrite Ha', Ha; reflexivity | lia].
Qed.

End Dispatch.



(** With subscribers that read a property of the frame, the first one
    is called with [null] and throws; the exception is caught and
    logged as if the text had not parsed, and the second subscriber is
    not called. *)
Example throwing_subscriber_stops_the_dispatch :
  let s := subscribe 3 (subscribe 7 connected) in
  let s' := step parse_keyword throws_on_null (SocketMessage 0 "null") s in
  delivered s' = [(7, JNull)]
  /\ console s' = console s ++ [ErrorParsing "null"]
  /\ connection_state s' = Connected.
Proof. vm_compute. repeat split. Qed.

(** A browser reports a connection that fails by an [error] event
    followed by a [close] event; the handlers of both call
    [handleDisconnect], so that one failed connection moves the
    counter by two and arms two timers. *)
Example failed_connection_counts_twice :
  let s := run parse_keyword never_throws
             [CallConnect reconnectConfig; SocketError 0; SocketCloses 0]
             initial in
  reconnectAttempts s = 2 /\ timers s = [1000; 2000]%Z
  /\ console s = [ErrorSocket].
Proof. vm_compute. repeat split. Qed.

(** The same payload followed by one that parses. *)
Example malformed_then_well_formed :
  let s := run parse_keyword never_throws
             [SocketMessage 0 "{oops"; SocketMessage 0 "null"]
             (subscribe 3 (subscribe 7 connected)) in
  delivered s = [(7, JNull); (3, JNull)]
  /\ console s = [LogConnected; ErrorParsing "{oops"]
  /\ held_open s = true.
Proof. vm_compute. repeat split. Qed.

(** ** Further invariants of the manager *)

Section Invariants.

Variable JSON_parse : string -> option JsValue.
Variable throws : WebSocketCallback -> JsValue -> bool.

Lemma subscribe_callbacks cb s :
  callbacks (subscribe cb s)
  = if existsb (Nat.eqb cb) (callbacks s) then callbacks s
    else callbacks s ++ [cb].
Proof. unfold subscribe. destruct (existsb _ _); reflexivity. Qed.

Lemma existsb_eqb_false cb (l : list nat) :
  existsb (Nat.eqb cb) l = false -> cb ∉ l.
Proof.
  intros H Hin. apply list_elem_of_In in Hin.
  assert (existsb (Nat.eqb cb) l = true) as Ht.
  { apply existsb_exists. exists cb. split; [exact Hin | apply Nat.eqb_refl]. }
  congruence.
Qed.

Lemma handleDisconnect_callbacks s :
  callbacks (handleDisconnect s) = callbacks s.
Proof.
  unfold handleDisconnect.
  destruct (reconnectAttempts s <? maxReconnectAttempts)%nat; reflexivity.
Qed.

Lemma handleDisconnect_delivered s :
  delivered (handleDisconnect s) = delivered s.
Proof.
  unfold handleDisconnect.
  destruct (reconnectAttempts s <? maxReconnectAttempts)%nat; reflexivity.
Qed.

Lemma connect_callbacks config s : callbacks (connect config s) = callbacks s.
Proof. unfold connect. destruct (held_open s); reflexivity. Qed.

Lemma connect_delivered config s : delivered (connect config s) = delivered s.
Proof. unfold connect. destruct (held_open s); reflexivity. Qed.

Lemma disconnect_callbacks s : callbacks (disconnect s) = callbacks s.
Proof. unfold disconnect. destruct (ws s); reflexivity. Qed.

Lemma disconnect_delivered s : delivered (disconnect s) = delivered s.
Proof. unfold disconnect. destruct (ws s); reflexivity. Qed.

(** Only [subscribe] and the function it returns change the set of
    subscribers. *)
Lemma step_callbacks e s :
  callbacks (step JSON_parse throws e s)
  = match e with
    | CallSubscribe cb => callbacks (subscribe cb s)
    | CallUnsubscribe cb => filter (fun c => c <> cb) (callbacks s)
    | _ => callbacks s
    end.
Proof.
  destruct e; simpl; try reflexivity.
  - apply connect_callbacks.
  - apply disconnect_callbacks.
  - destruct (socket_in CONNECTING h s); reflexivity.
  - destruct (socket_in OPEN h s); [| reflexivity].
    exact (proj1 (proj2 (proj2 (onmessage_frame JSON_parse throws data s)))).
  - destruct (sockets s !! h) as [k |]; [| reflexivity].
    destruct (live k); [| reflexivity].
    unfold onerror. rewrite handleDisconnect_callbacks. reflexivity.
  - destruct (sockets s !! h) as [k |]; [| reflexivity].
    destruct (live k); [| reflexivity].
    unfold onclose. rewrite handleDisconnect_callbacks. reflexivity.
  - destruct (timers s !! k); [| reflexivity].
    unfold reconnect. rewrite connect_callbacks. reflexivity.
Qed.

(** Whatever a step adds to the calls made went to a subscriber of the
    moment. *)
Lemma step_delivered e s :
  exists calls : list (WebSocketCallback * JsValue),
    delivered (step JSON_parse throws e s) = delivered s ++ calls
    /\ Forall (fun d => d.1 ∈ callbacks s) calls.
Proof.
  assert (Hnone : forall t, delivered t = delivered s ->
            exists calls : list (WebSocketCallback * JsValue),
              delivered t = delivered s ++ calls
              /\ Forall (fun d => d.1 ∈ callbacks s) calls).
  { intros t Ht. exists []. rewrite app_nil_r. split; [exact Ht | constructor]. }
  destruct e; simpl.
  - apply Hnone, connect_delivered.
  - apply Hnone, disconnect_delivered.
  - apply Hnone. unfold subscribe. destruct (existsb _ _); reflexivity.
  - apply Hnone. reflexivity.
  - apply Hnone. destruct (socket_in CONNECTING h s); reflexivity.
  - destruct (socket_in OPEN h s); [| apply Hnone; reflexivity].
    rewrite (onmessage_delivered JSON_parse throws).
    destruct (JSON_parse data) as [v |];
      [| exists []; split; [reflexivity | constructor]].
    eexists. split; [reflexivity |].
    eapply Forall_impl; [apply forEach_call_members |].
    intros d Hd. exact (proj1 Hd).
  - apply Hnone. destruct (sockets s !! h) as [k |]; [| reflexivity].
    destruct (live k); [| reflexivity].
    unfold onerror. rewrite handleDisconnect_delivered. reflexivity.
  - apply Hnone. destruct (sockets s !! h) as [k |]; [| reflexivity].
    destruct (live k); [| reflexivity].
    unfold onclose. rewrite handleDisconnect_delivered. reflexivity.
  - apply Hnone. destruct (timers s !! k); [| reflexivity].
    unfold reconnect. rewrite connect_delivered. reflexivity.
Qed.

Lemma filter_none {A : Type} (P : A -> Prop) `{forall x, Decision (P x)}
    (l : list A) :
  Forall (fun x => ~ P x) l -> filter P l = [].
Proof.
  induction 1 as [| x l Hx _ IH]; [reflexivity |].
  rewrite filter_cons_False by exact Hx. exact IH.
Qed.

(** X1: the set of subscribers never holds a callback twice, whatever
    calls and events the manager has seen since it was created: a
    callback that subscribes again is not added again. *)
Theorem X1_subscribers_are_held_once (es : list Event) :
  NoDup (callbacks (run JSON_parse throws es initial)).
Proof.
  assert (Hstep : forall e s, NoDup (callbacks s) ->
                    NoDup (callbacks (step JSON_parse throws e s))).
  { intros e s Hs. rewrite step_callbacks.
    destruct e; try exact Hs.
    - rewrite subscribe_callbacks.
      destruct (existsb (Nat.eqb cb) (callbacks s)) eqn:E; [exact Hs |].
      apply NoDup_app. split; [exact Hs |]. split.
      + intros x Hx Hx'. apply list_elem_of_singleton in Hx'. subst x.
        exact (existsb_eqb_false _ _ E Hx).
      + apply NoDup_singleton.
    - apply NoDup_filter, Hs. }
  assert (Hrun : forall es s, NoDup (callbacks s) ->
                   NoDup (callbacks (run JSON_parse throws es s))).
  { intros es'. induction es' as [| e es' IH]; intros s Hs; simpl; [exact Hs |].
    apply IH, Hstep, Hs. }
  apply Hrun. simpl. apply NoDup_nil_2.
Qed.

(** X2: once a callback has been unsubscribed, no frame is delivered to
    it any more, whatever happens next, until it subscribes again. *)
Theorem X2_unsubscribed_callback_gets_no_frame
    (cb : WebSocketCallback) (s : State) (es : list Event)
    (Hes : Forall (fun e => e <> CallSubscribe cb) es) :
  filter (fun d => d.1 = cb) (delivered (run JSON_parse throws es (unsubscribe cb s)))
  = filter (fun d => d.1 = cb) (delivered s).
Proof.
  assert (Hgone : cb ∉ callbacks (unsubscribe cb s)).
  { simpl. intros Hin. apply list_elem_of_filter in Hin. destruct Hin as [Hne _].
    apply Hne. reflexivity. }
  change (delivered s) with (delivered (unsubscribe cb s)).
  generalize dependent (unsubscribe cb s). clear s.
  induction Hes as [| e es He _ IH]; intros s Hgone; simpl; [reflexivity |].
  rewrite IH.
  - destruct (step_delivered e s) as (calls & Hv & Hcalls).
    rewrite Hv, filter_app.
    rewrite (filter_none _ calls); [apply app_nil_r |].
    eapply Forall_impl; [exact Hcalls |].
    intros [c x] Hin Hc. simpl in Hc, Hin. subst c. exact (Hgone Hin).
  - rewrite step_callbacks. destruct e; try exact Hgone.
    + rewrite subscribe_callbacks.
      destruct (existsb (Nat.eqb cb0) (callbacks s)); [exact Hgone |].
      intros Hin. apply elem_of_app in Hin. destruct Hin as [Hin | Hin].
      * exact (Hgone Hin).
      * apply list_elem_of_singleton in Hin. subst cb0. apply He. reflexivity.
    + intros Hin. apply list_elem_of_filter in Hin. exact (Hgone (proj2 Hin)).
Qed.

End Invariants.

Lemma X2_unsubscribed_callback_witness :
  filter (fun d => d.1 = 7)
    (delivered
       (run parse_keyword never_throws [SocketMessage 0 "true"; CallSubscribe 3; SocketMessage 0 "null"]
          (unsubscribe 7 (subscribe 7 connected))))
  = filter (fun d => d.1 = 7) (delivered (subscribe 7 connected)).
Proof.
  apply (X2_unsubscribed_callback_gets_no_frame parse_keyword never_throws 7
           (subscribe 7 connected)
           [SocketMessage 0 "true"; CallSubscribe 3; SocketMessage 0 "null"]).
  repeat constructor; discriminate.
Defined.

Section Budget.

Variable JSON_parse : string -> option JsValue.
Variable throws : WebSocketCallback -> JsValue -> bool.

Lemma connect_sockets_length config s :
  (length (sockets (connect config s)) <= S (length (sockets s)))%nat.
Proof.
  unfold connect. destruct (held_open s); simpl; [lia |].
  rewrite length_app. simpl. lia.
Qed.

Lemma handleDisconnect_delays s :
  Forall delay_ok (timers s) -> Forall delay_ok (timers (handleDisconnect s)).
Proof.
  intros H. rewrite handleDisconnect_timers.
  destruct (Nat.ltb_spec (reconnectAttempts s) maxReconnectAttempts) as [Hlt | _];
    [| exact H].
  apply Forall_app. split; [exact H |].
  apply Forall_singleton. unfold delay_ok, maxReconnectAttempts, reconnectTimeout in *.
  destruct (reconnectAttempts s) as [| [| [| [| [| n]]]]]; [| | | | | lia];
    apply list_elem_of_In; simpl; tauto.
Qed.

Lemma step_delays e s :
  Forall delay_ok (timers s) -> Forall delay_ok (timers (step JSON_parse throws e s)).
Proof.
  intros H. destruct e; simpl.
  - rewrite connect_timers. exact H.
  - rewrite disconnect_timers. exact H.
  - unfold subscribe. destruct (existsb _ _); exact H.
  - exact H.
  - destruct (socket_in CONNECTING h s); exact H.
  - destruct (socket_in OPEN h s); [| exact H].
    rewrite (proj2 (proj2 (proj2 (proj2 (onmessage_frame JSON_parse throws data s))))).
    exact H.
  - destruct (sockets s !! h) as [k |]; [| exact H].
    destruct (live k); [| exact H].
    unfold onerror. apply handleDisconnect_delays. exact H.
  - destruct (sockets s !! h) as [k |]; [| exact H].
    destruct (live k); [| exact H].
    unfold onclose. apply handleDisconnect_delays. exact H.
  - destruct (timers s !! k); [| exact H].
    unfold reconnect. rewrite connect_timers. simpl.
    apply Forall_delete, H.
Qed.

(** X3: in every state the manager can reach, the attempt counter is at
    most 5 and every pending retry waits 1, 2, 3, 4 or 5 seconds. *)
Theorem X3_counter_and_delays_are_bounded (es : list Event) :
  (reconnectAttempts (run JSON_parse throws es initial) <= 5)%nat
  /\ Forall (fun d => d ∈ [1000; 2000; 3000; 4000; 5000]%Z)
            (timers (run JSON_parse throws es initial)).
Proof.
  split.
  - apply run_attempts_bounded. simpl. unfold maxReconnectAttempts. lia.
  - assert (Hrun : forall es s, Forall delay_ok (timers s) ->
                     Forall delay_ok (timers (run JSON_parse throws es s))).
    { intros es'. induction es' as [| e es' IH]; intros s Hs; simpl; [exact Hs |].
      apply IH, step_delays, Hs. }
    apply (Hrun es initial). simpl. apply Forall_nil_2.
Qed.

Lemma handleDisconnect_budget s : budget (handleDisconnect s) = budget s.
Proof.
  unfold budget. rewrite handleDisconnect_timers, handleDisconnect_attempts.
  destruct (Nat.ltb_spec (reconnectAttempts s) maxReconnectAttempts);
    [rewrite length_app; simpl length; lia | reflexivity].
Qed.

Lemma step_budget e s :
  (forall h, e <> SocketOpens h) ->
  (forall config, e <> CallConnect config) ->
  (length (sockets (step JSON_parse throws e s)) + budget (step JSON_parse throws e s)
   <= length (sockets s) + budget s)%nat.
Proof.
  intros Hopen Hconn. destruct e; cbn [step].
  - destruct (Hconn config eq_refl).
  - unfold budget. rewrite disconnect_sockets_length, disconnect_timers,
      disconnect_attempts. lia.
  - unfold subscribe. destruct (existsb _ _); unfold budget; cbn -[Nat.sub]; lia.
  - unfold budget. cbn -[Nat.sub]. lia.
  - destruct (Hopen h eq_refl).
  - destruct (socket_in OPEN h s); [| lia].
    destruct (onmessage_frame JSON_parse throws data s) as (_ & Ha & _ & Hs & Ht).
    unfold budget. rewrite Ha, Hs, Ht. lia.
  - destruct (sockets s !! h) as [k |]; [| lia].
    destruct (live k); [| lia].
    unfold onerror. rewrite handleDisconnect_sockets, handleDisconnect_budget.
    unfold budget. cbn -[Nat.sub]. lia.
  - destruct (sockets s !! h) as [k |]; [| lia].
    destruct (live k); [| lia].
    unfold onclose. rewrite handleDisconnect_sockets, handleDisconnect_budget.
    unfold budget, mark. cbn -[Nat.sub]. rewrite length_alter. lia.
  - destruct (timers s !! k) as [d |] eqn:Hk; [| lia].
    unfold reconnect.
    match goal with
    | |- context [connect reconnectConfig ?t] =>
        pose proof (connect_sockets_length reconnectConfig t) as Hs;
        unfold budget;
        rewrite (connect_timers reconnectConfig t),
                (connect_attempts reconnectConfig t)
    end.
    cbn -[Nat.sub] in *. rewrite length_delete by (rewrite Hk; eauto).
    apply lookup_lt_Some in Hk. lia.
Qed.

(** X4: as long as [connect] is not called and no socket opens, the
    sockets the manager constructs on its own are paid for by the
    retries pending and the attempts left: their number is at most the
    pending timers plus 5 minus the counter. *)
Theorem X4_automatic_reconnects_are_bounded (s : State) (es : list Event)
    (Hes : Forall (fun e => (forall h, e <> SocketOpens h)
                            /\ (forall config, e <> CallConnect config)) es) :
  (length (sockets (run JSON_parse throws es s))
   <= length (sockets s) + length (timers s)
      + (maxReconnectAttempts - reconnectAttempts s))%nat.
Proof.
  assert (H : (length (sockets (run JSON_parse throws es s)) + budget (run JSON_parse throws es s)
               <= length (sockets s) + budget s)%nat).
  { revert s. induction Hes as [| e es [Ho Hc] _ IH]; intros s; simpl; [lia |].
    specialize (IH (step JSON_parse throws e s)).
    pose proof (step_budget e s Ho Hc). lia. }
  unfold budget in H. lia.
Qed.

(** X5: a retry connects to port 8050, the port written in
    [handleDisconnect], whatever port [connect] was called with; when the
    socket the manager holds is open by the time the timer runs, it
    constructs nothing. *)
Theorem X5_retry_connects_to_port_8050 (s : State) (k : nat) (d : Z)
    (Hk : timers s !! k = Some d) :
  sockets (step JSON_parse throws (TimerFires k) s)
  = if held_open s then sockets s
    else sockets s ++ [mkWebSocket "ws://localhost:8050/ws" CONNECTING].
Proof.
  simpl. rewrite Hk. unfold reconnect, connect.
  match goal with
  | |- context [held_open ?t] => change (held_open t) with (held_open s)
  end.
  destruct (held_open s); reflexivity.
Qed.

End Budget.

Lemma X4_automatic_reconnects_witness :
  (length (sockets (run parse_keyword never_throws
                      [SocketError 0; SocketCloses 0; TimerFires 0; TimerFires 0;
                       SocketCloses 1; SocketCloses 2; TimerFires 0; CallDisconnect]
                      (connect reconnectConfig initial)))
   <= 1 + 0 + (5 - 0))%nat.
Proof.
  apply (X4_automatic_reconnects_are_bounded parse_keyword never_throws
           (connect reconnectConfig initial)
           [SocketError 0; SocketCloses 0; TimerFires 0; TimerFires 0;
            SocketCloses 1; SocketCloses 2; TimerFires 0; CallDisconnect]).
  repeat constructor; discriminate.
Defined.

Lemma X5_retry_connects_to_port_8050_witness :
  let s := run parse_keyword never_throws
             [CallConnect (mkSystemConfig (mkVisualization 5000 3600 9000));
              SocketError 0] initial in
  sockets s = [mkWebSocket "ws://localhost:9000/ws" CONNECTING]
  /\ sockets (step parse_keyword never_throws (TimerFires 0) s)
     = [mkWebSocket "ws://localhost:9000/ws" CONNECTING;
        mkWebSocket "ws://localhost:8050/ws" CONNECTING].
Proof.
  intros s. split; [reflexivity |].
  exact (X5_retry_connects_to_port_8050 parse_keyword never_throws s 0 1000%Z eq_refl).
Defined.

End TransportFacts.

(* ================================================================== *)
(** * Properties of the persistence layer *)
(* ================================================================== *)

Module PersistenceFacts.

Import Persistence.
Local Open Scope string_scope.

Example new_while_upstream_down :
  fst (new false world_upstream_down) = Ok self_limited
  /\ log (snd (new false world_upstream_down))
     = [(ERROR, Fmt "Failed to connect to database: " (PyStr "upstream connection failed"));
        (ERROR, Fmt "Failed to connect to database: " (PyStr "upstream connection failed"));
        (WARNING, Lit "Continuing with limited functionality (no database connection)")]
  /\ feed_parameters (snd (new false world_upstream_down)) = Some [].
Proof. vm_compute. repeat split. Qed.

Example new_while_upstream_up :
  match new true world_upstream_up with
  | (Ok self, w) =>
      is_connected self = true
      /\ conn_str self
         = Some "DRIVER={ODBC Driver 17 for SQL Server};SERVER=localhost,1433;DATABASE=dbreactor;Trusted_Connection=yes;"
      /\ issued w = [mkStatement "SELECT @@version" []]
  | (Raise _, _) => False
  end.
Proof. vm_compute. repeat split. Qed.


(** ** Which calls can raise *)

Lemma try_except_returns {S A : Type} (m : M (S := S) A) (h : Exn -> M A) (s : S) :
  (forall e s', raised (fst (h e s')) = false) ->
  raised (fst (try_except m h s)) = false.
Proof.
  intros H. unfold try_except. destruct (m s) as [[a | e] s']; [reflexivity | apply H].
Qed.

Ltac unfold_init :=
  unfold new, __init__, bind, try_except, gets, assign, modify, self_, liftW,
    ret, raise;
  cbn -[_build_connection_string getenv _test_connection
        initialize_dashboard_database _create_dashboard_engine].

Ltac step_init :=
  match goal with
  | |- context [_create_dashboard_engine ?w] =>
      destruct (_create_dashboard_engine w) as [[? | ?] ?]
  | |- context [initialize_dashboard_database ?s ?w] =>
      destruct (initialize_dashboard_database s w) as [[[] | ?] ?]
  | |- context [_test_connection ?s ?w] =>
      destruct (_test_connection s w) as [[[] | ?] ?]
  end;
  cbn -[_build_connection_string getenv _test_connection
        initialize_dashboard_database _create_dashboard_engine].

(** With [required = False] the constructor returns an object, whatever
    the state of the two stores. *)
Lemma new_not_required_returns w : raised (fst (new false w)) = false.
Proof. unfold_init. repeat step_init; reflexivity. Qed.

Lemma initialize_dashboard_database_returns self w :
  raised (fst (initialize_dashboard_database self w)) = false.
Proof. apply try_except_returns. reflexivity. Qed.

Lemma _test_connection_unreachable self cs w :
  conn_str self = Some cs ->
  upstream_accepts w cs = false ->
  fst (_test_connection self w)
  = Raise (mkExn OperationalError "upstream connection failed").
Proof.
  intros Hcs Hno.
  unfold _test_connection, with_, try_except, bind, attribute, upstream_connect.
  rewrite Hcs. cbn. rewrite Hno. reflexivity.
Qed.


Lemma _create_dashboard_engine_world w : snd (_create_dashboard_engine w) = w.
Proof. unfold _create_dashboard_engine. destruct (data_dir_ok w); reflexivity. Qed.

Lemma initialize_dashboard_database_upstream self w :
  upstream_accepts (snd (initialize_dashboard_database self w))
  = upstream_accepts w.
Proof.
  unfold initialize_dashboard_database, with_, try_except, bind, attribute,
    local_connect.
  destruct (dashboard_engine self); cbn; [| reflexivity].
  destruct (local_ok w); reflexivity.
Qed.

(** With [required = True] the constructor raises when no connection
    string is accepted upstream. *)
Lemma new_required_unreachable_raises w :
  (forall cs, upstream_accepts w cs = false) ->
  raised (fst (new true w)) = true.
Proof.
  intros Hno. unfold_init.
  pose proof (_create_dashboard_engine_world w) as Hw.
  destruct (_create_dashboard_engine w) as [[p | e] w1]; cbn in Hw; subst w1;
    cbn -[_build_connection_string getenv _test_connection
          initialize_dashboard_database]; [| reflexivity].
  match goal with
  | |- context [initialize_dashboard_database ?s w] =>
      pose proof (initialize_dashboard_database_upstream s w) as Hi;
      pose proof (initialize_dashboard_database_returns s w) as Hr;
      destruct (initialize_dashboard_database s w) as [[[] | e] w2]
  end; [| discriminate Hr].
  cbn -[_build_connection_string getenv _test_connection] in *.
  match goal with
  | |- context [_test_connection ?s w2] =>
      pose proof (_test_connection_unreachable s _ w2 eq_refl) as Ht;
      destruct (_test_connection s w2) as [r w3]
  end.
  cbn in Ht. rewrite Ht; [reflexivity |].
  rewrite Hi. apply Hno.
Qed.

Section Queries.

Variable pd_to_datetime : list PyVal -> Result (list PyVal).

Lemma get_latest_data_returns self minutes w :
  raised (fst (get_latest_data pd_to_datetime self minutes w)) = false.
Proof. apply try_except_returns. reflexivity. Qed.

Lemma get_current_values_returns self w :
  raised (fst (get_current_values self w)) = false.
Proof. apply try_except_returns. reflexivity. Qed.

Lemma save_feed_parameters_returns self feed_type toc glucose_conc w :
  raised (fst (save_feed_parameters self feed_type toc glucose_conc w)) = false.
Proof. apply try_except_returns. reflexivity. Qed.

Lemma get_feed_parameters_returns self w :
  raised (fst (get_feed_parameters self w)) = false.
Proof. apply try_except_returns. reflexivity. Qed.

(** The two resilient queries answer with their neutral value when the
    connection fails. *)
Lemma get_latest_data_unreachable self cs minutes w :
  reactor_engine self = Some cs ->
  upstream_accepts w cs = false ->
  fst (get_latest_data pd_to_datetime self minutes w) = Ok empty_frame.
Proof.
  intros Hcs Hno.
  unfold get_latest_data, with_, try_except, bind, attribute, upstream_connect.
  rewrite Hcs. cbn. rewrite Hno. reflexivity.
Qed.

Lemma get_current_values_unreachable self cs w :
  reactor_engine self = Some cs ->
  upstream_accepts w cs = false ->
  fst (get_current_values self w) = Ok (PyDict []).
Proof.
  intros Hcs Hno.
  unfold get_current_values, with_, try_except, bind, attribute, upstream_connect.
  rewrite Hcs. cbn. rewrite Hno. reflexivity.
Qed.

(** The range query has no handler: a failure to connect goes to the
    caller. *)
Lemma get_historical_data_unreachable self cs start_time end_time w :
  reactor_engine self = Some cs ->
  upstream_accepts w cs = false ->
  get_historical_data pd_to_datetime self start_time end_time w
  = (Raise (mkExn OperationalError "upstream connection failed"), w).
Proof.
  intros Hcs Hno.
  unfold get_historical_data, with_, bind, attribute, upstream_connect.
  rewrite Hcs. cbn. rewrite Hno. reflexivity.
Qed.

(** So does a failure of the query itself. *)
Lemma get_historical_data_query_fails self cs start_time end_time w e :
  reactor_engine self = Some cs ->
  upstream_accepts w cs = true ->
  upstream_answer w
    (mkStatement query_historical_data
       [("start_time", PyStr start_time); ("end_time", PyStr end_time)])
  = Raise e ->
  fst (get_historical_data pd_to_datetime self start_time end_time w) = Raise e.
Proof.
  intros Hcs Hyes Hans.
  unfold get_historical_data, with_, bind, attribute, upstream_connect,
    read_sql_query, upstream_execute.
  rewrite Hcs. cbn. rewrite Hyes, Hans. reflexivity.
Qed.

End Queries.

(** C5: with the upstream server down, [DatabaseConnection()] returns an
    object that is not connected, [get_latest_data] returns an empty
    frame and [get_current_values] an empty dict, and the constructor
    with [required = True] raises; but the range query
    [get_historical_data] raises as well, where the claim has it return
    an empty result. *)
Theorem C5_historical_query_raises_when_upstream_down
    (pd_to_datetime : list PyVal -> Result (list PyVal)) :
  let (r, w) := new false world_upstream_down in
  r = Ok self_limited
  /\ is_connected self_limited = false
  /\ raised (fst (new true world_upstream_down)) = true
  /\ fst (get_latest_data pd_to_datetime self_limited 30 w) = Ok empty_frame
  /\ fst (get_current_values self_limited w) = Ok (PyDict [])
  /\ fst (get_historical_data pd_to_datetime self_limited
            "2024-01-01T00:00:00" "2024-01-02T00:00:00" w)
     = Raise (mkExn OperationalError "upstream connection failed").
Proof. vm_compute. repeat split. Qed.


(** ** What goes out to the upstream server *)

Create HintDb quiet.

Lemma quiet_ret {A : Type} (a : A) : quiet (ret a).
Proof. intros w. reflexivity. Qed.

Lemma quiet_raise {A : Type} (e : Exn) : quiet (raise (A := A) e).
Proof. intros w. reflexivity. Qed.

Lemma quiet_bind {A B : Type} (m : M A) (k : A -> M B) :
  quiet m -> (forall a, quiet (k a)) -> quiet (bind m k).
Proof.
  intros Hm Hk w. unfold bind. specialize (Hm w).
  destruct (m w) as [[a | e] w']; [| exact Hm].
  rewrite Hk. exact Hm.
Qed.

Lemma quiet_with {A B : Type} (m : M A) (k : A -> M B) :
  quiet m -> (forall a, quiet (k a)) -> quiet (with_ m k).
Proof. apply quiet_bind. Qed.

Lemma quiet_try_except {A : Type} (m : M A) (h : Exn -> M A) :
  quiet m -> (forall e, quiet (h e)) -> quiet (try_except m h).
Proof.
  intros Hm Hh w. unfold try_except. specialize (Hm w).
  destruct (m w) as [[a | e] w']; [exact Hm |].
  rewrite Hh. exact Hm.
Qed.

Lemma quiet_print t : quiet (print t).
Proof. intros w. reflexivity. Qed.

Lemma quiet_logger l t : quiet (logger l t).
Proof. intros w. reflexivity. Qed.

Lemma quiet_attribute {A : Type} name (a : option A) : quiet (attribute name a).
Proof. intros w. destruct a; reflexivity. Qed.

Lemma quiet_upstream_connect cs : quiet (upstream_connect cs).
Proof. intros w. unfold upstream_connect. destruct (upstream_accepts w cs); reflexivity. Qed.

Lemma quiet_local_connect : quiet local_connect.
Proof. intros w. unfold local_connect. destruct (local_ok w); reflexivity. Qed.

Lemma quiet_local_insert_feed ft toc g : quiet (local_insert_feed ft toc g).
Proof. intros w. unfold local_insert_feed. destruct (feed_parameters w); reflexivity. Qed.

Lemma quiet_local_select_feed : quiet local_select_feed.
Proof. intros w. unfold local_select_feed. destruct (feed_parameters w); reflexivity. Qed.

Lemma quiet_row_attr name r : quiet (row_attr name r).
Proof. intros w. unfold row_attr. destruct (find _ r); reflexivity. Qed.

Lemma quiet_column_get name df : quiet (column_get name df).
Proof. intros w. unfold column_get. destruct (index_of _ _); reflexivity. Qed.

Lemma quiet_to_datetime pd vs : quiet (to_datetime pd vs).
Proof. intros w. reflexivity. Qed.

#[local] Hint Resolve quiet_ret quiet_raise quiet_print quiet_logger
  quiet_attribute quiet_upstream_connect quiet_local_connect
  quiet_local_insert_feed quiet_local_select_feed quiet_row_attr
  quiet_column_get quiet_to_datetime : quiet.

(** Discharges [quiet] goals along the structure of the computation. *)
Ltac quiet_tac :=
  repeat first
    [ progress auto with quiet
    | apply quiet_try_except; [| intros ?]
    | apply quiet_with; [| intros ?]
    | apply quiet_bind; [| intros ?]
    | match goal with
      | |- quiet (match ?x with _ => _ end) => destruct x
      end ].

(** A failure handler that is quiet does not change what was sent. *)
Lemma issued_try_except {A : Type} (m : M A) (h : Exn -> M A) w :
  (forall e, quiet (h e)) ->
  issued (snd (try_except m h w)) = issued (snd (m w)).
Proof.
  intros Hh. unfold try_except.
  destruct (m w) as [[a | e] w']; [reflexivity | apply Hh].
Qed.

(** The shape shared by the three upstream queries: read the engine,
    connect, execute one statement, and work on the answer quietly. *)
Lemma issued_query {A : Type} self text ps (k : DataFrame -> M A) w :
  (forall df, quiet (k df)) ->
  issued
    (snd ((do cs <- attribute "reactor_engine" (reactor_engine self);
           with_ (upstream_connect cs) (fun _ =>
             do df <- upstream_execute text ps; k df)) w))
  = (issued w ++ when_connected self w (mkStatement text ps))%list.
Proof.
  intros Hk.
  unfold when_connected, with_, bind, attribute, upstream_connect, upstream_execute.
  destruct (reactor_engine self) as [cs |]; cbn; [| rewrite app_nil_r; reflexivity].
  destruct (upstream_accepts w cs); cbn; [| rewrite app_nil_r; reflexivity].
  destruct (upstream_answer w _) as [df | e]; [| reflexivity].
  rewrite Hk. reflexivity.
Qed.

Section Issued.

Variable pd_to_datetime : list PyVal -> Result (list PyVal).

Lemma get_historical_data_issued self start_time end_time w :
  issued (snd (get_historical_data pd_to_datetime self start_time end_time w))
  = (issued w
     ++ when_connected self w
          (mkStatement query_historical_data
             [("start_time", PyStr start_time); ("end_time", PyStr end_time)]))%list.
Proof.
  unfold get_historical_data, read_sql_query.
  apply issued_query. intros df. quiet_tac.
Qed.

Lemma get_latest_data_issued self minutes w :
  issued (snd (get_latest_data pd_to_datetime self minutes w))
  = (issued w
     ++ when_connected self w
          (mkStatement query_latest_data [("minutes", PyInt minutes)]))%list.
Proof.
  unfold get_latest_data, read_sql_query.
  rewrite issued_try_except by (intros e; quiet_tac).
  apply issued_query. intros df. quiet_tac.
Qed.

End Issued.

Lemma get_current_values_issued self w :
  issued (snd (get_current_values self w))
  = (issued w
     ++ when_connected self w (mkStatement query_current_values []))%list.
Proof.
  unfold get_current_values.
  rewrite issued_try_except by (intros e; quiet_tac).
  apply issued_query. intros df. quiet_tac.
Qed.

Lemma _test_connection_issued self w :
  issued (snd (_test_connection self w))
  = (issued w
     ++ match conn_str self with
        | Some cs =>
            if upstream_accepts w cs then [mkStatement query_version []] else []
        | None => []
        end)%list.
Proof.
  unfold _test_connection.
  rewrite issued_try_except by (intros e; quiet_tac).
  unfold with_, bind, attribute, upstream_connect, upstream_execute.
  destruct (conn_str self) as [cs |]; cbn; [| rewrite app_nil_r; reflexivity].
  destruct (upstream_accepts w cs); cbn; [| rewrite app_nil_r; reflexivity].
  destruct (upstream_answer w _) as [df | e]; [| reflexivity].
  destruct (rows df) as [| [| v r] rs]; reflexivity.
Qed.

(** The calls on the local store send nothing upstream. *)
Lemma local_calls_quiet self feed_type toc glucose_conc :
  quiet (save_feed_parameters self feed_type toc glucose_conc)
  /\ quiet (get_feed_parameters self).
Proof. split; unfold save_feed_parameters, get_feed_parameters; quiet_tac. Qed.

(** C6: each upstream query, and the connection test, sends at most
    one statement, whose text is a constant of the class and whose
    parameters carry the arguments: [start_time] and [end_time] of the
    range query are bound to [:start_time] and [:end_time], and the text
    sent is the same for any two pairs of arguments. *)
Theorem C6_upstream_queries_bind_their_arguments
    (pd_to_datetime : list PyVal -> Result (list PyVal))
    (self : DatabaseConnection) (w : World)
    (start_time end_time : string) (minutes : Z) :
  issued (snd (get_historical_data pd_to_datetime self start_time end_time w))
  = (issued w
     ++ when_connected self w
          (mkStatement query_historical_data
             [("start_time", PyStr start_time); ("end_time", PyStr end_time)]))%list
  /\ (forall start_time' end_time',
        map sql (issued (snd (get_historical_data pd_to_datetime self
                                start_time' end_time' w)))
        = map sql (issued (snd (get_historical_data pd_to_datetime self
                                  start_time end_time w))))
  /\ issued (snd (get_latest_data pd_to_datetime self minutes w))
     = (issued w
        ++ when_connected self w
             (mkStatement query_latest_data [("minutes", PyInt minutes)]))%list
  /\ issued (snd (get_current_values self w))
     = (issued w
        ++ when_connected self w (mkStatement query_current_values []))%list
  /\ issued (snd (_test_connection self w))
     = (issued w
        ++ match conn_str self with
           | Some cs =>
               if upstream_accepts w cs then [mkStatement query_version []]
               else []
           | None => []
           end)%list.
Proof.
  split; [apply get_historical_data_issued |].
  split.
  { intros s' e'. rewrite !get_historical_data_issued, !map_app.
    f_equal. unfold when_connected.
    destruct (reactor_engine self) as [cs |]; [| reflexivity].
    destruct (upstream_accepts w cs); reflexivity. }
  split; [apply get_latest_data_issued |].
  split; [apply get_current_values_issued | apply _test_connection_issued].
Qed.

(** A range query whose argument is SQL text. *)
Example historical_query_with_hostile_argument :
  let self := set_is_connected true self_limited in
  issued (snd (get_historical_data to_datetime_strict self
                 "2024-01-01' OR '1'='1" "2024-01-02" world_upstream_up))
  = [mkStatement query_historical_data
       [("start_time", PyStr "2024-01-01' OR '1'='1");
        ("end_time", PyStr "2024-01-02")]].
Proof. vm_compute. reflexivity. Qed.


(** ** Feed parameters: save, then get *)




Lemma get_feed_parameters_latest self path w l r :
  dashboard_engine self = Some path ->
  local_ok w = true ->
  feed_parameters w = Some l ->
  latest l = Some r ->
  fst (get_feed_parameters self w)
  = Ok (feed_record (row_feed_type r) (row_toc_value r)
          (row_glucose_concentration r) (row_timestamp r)).
Proof.
  intros He Hl Ht Hr.
  unfold get_feed_parameters, with_, try_except, bind, attribute, local_connect,
    local_select_feed.
  rewrite He. cbn. rewrite Hl, Ht, Hr. reflexivity.
Qed.


(** Two saves within one second get the same timestamp; with the
    choice made in [latest], the first of them is read back. *)
Example get_after_two_saves_in_one_second :
  let w1 := snd (save_feed_parameters self_limited "control"
                   (Some (FNum 10)) (Some (FNum 20)) (snd (new false world_upstream_down))) in
  let w2 := snd (save_feed_parameters self_limited "experimental"
                   (Some (FNum 3)) (Some (FNum 4)) w1) in
  fst (get_feed_parameters self_limited w2)
  = Ok (feed_record "control" (Some (FNum 10)) (Some (FNum 20)) 1700000000).
Proof. vm_compute. reflexivity. Qed.




(** A NaN that is saved is read back as [None], an infinity as
    itself. *)
Example nan_is_read_back_as_None :
  fst (get_feed_parameters self_limited
         (snd (save_feed_parameters self_limited "control"
                 (Some FNaN) (Some (FInf false)) world_with_earlier_row)))
  = Ok (PyDict [("feed_type", PyStr "control");
                ("toc_value", PyNone);
                ("glucose_concentration", PyFloat (FInf false));
                ("timestamp", PyStr "2023-11-14 22:13:20")]).
Proof. vm_compute. reflexivity. Qed.

Example feed_record_of_witness :
  feed_record "experimental" (Some (FNum 3)) (Some (FNum 4)) 1700000000
  = PyDict [("feed_type", PyStr "experimental");
            ("toc_value", PyFloat (FNum 3));
            ("glucose_concentration", PyFloat (FNum 4));
            ("timestamp", PyStr "2023-11-14 22:13:20")].
Proof. vm_compute. reflexivity. Qed.

Import PersistenceNotions.

(** ** Calls that cannot raise *)

(** X16: the five calls that wrap their work in [try]/[except] return
    to the caller in every world, for every object and every argument:
    [initialize_dashboard_database], [get_latest_data],
    [get_current_values], [save_feed_parameters] and
    [get_feed_parameters] never raise. *)
Theorem X16_guarded_calls_never_raise
    (pd_to_datetime : list PyVal -> Result (list PyVal))
    (self : DatabaseConnection) (w : World)
    (minutes : Z) (feed_type : string) (toc glucose_conc : option Float) :
  raised (fst (initialize_dashboard_database self w)) = false
  /\ raised (fst (get_latest_data pd_to_datetime self minutes w)) = false
  /\ raised (fst (get_current_values self w)) = false
  /\ raised (fst (save_feed_parameters self feed_type toc glucose_conc w)) = false
  /\ raised (fst (get_feed_parameters self w)) = false.
Proof. repeat split; apply try_except_returns; reflexivity. Qed.

(** ** The constructor *)

Lemma _test_connection_ok self w :
  raised (fst (_test_connection self w)) = false ->
  exists cs, conn_str self = Some cs /\ upstream_accepts w cs = true.
Proof.
  unfold _test_connection, with_, try_except, bind, attribute, upstream_connect.
  destruct (conn_str self) as [cs |]; cbn; [| discriminate].
  destruct (upstream_accepts w cs) eqn:E; cbn; [| discriminate].
  intros _. exists cs. split; [reflexivity | exact E].
Qed.

Lemma _create_dashboard_engine_ok w :
  raised (fst (_create_dashboard_engine w)) = false -> data_dir_ok w = true.
Proof.
  unfold _create_dashboard_engine. destruct (data_dir_ok w); [reflexivity | discriminate].
Qed.

Lemma new_constructed required w :
  match new required w with
  | (Ok self, _) => Persistence.required self = required /\ constructed w self
  | (Raise _, _) => required = true
  end.
Proof.
  unfold_init.
  pose proof (_create_dashboard_engine_world w) as Hw.
  pose proof (_create_dashboard_engine_ok w) as Hd.
  destruct (_create_dashboard_engine w) as [[p | e] w1] eqn:Ec; cbn in Hw; subst w1;
    cbn -[_build_connection_string getenv _test_connection
          initialize_dashboard_database].
  2: { destruct required; cbn; [reflexivity |].
       split; [reflexivity |]. unfold constructed. cbn.
       repeat split; discriminate. }
  assert (Hp : p = "data/dashboard.db").
  { unfold _create_dashboard_engine in Ec. destruct (data_dir_ok w); congruence. }
  subst p.
  match goal with
  | |- context [initialize_dashboard_database ?s w] =>
      pose proof (initialize_dashboard_database_upstream s w) as Hi;
      pose proof (initialize_dashboard_database_returns s w) as Hr;
      destruct (initialize_dashboard_database s w) as [[[] | e] w2]
  end; [| discriminate Hr].
  cbn -[_build_connection_string getenv _test_connection] in *.
  match goal with
  | |- context [_test_connection ?s w2] =>
      pose proof (_test_connection_ok s w2) as Ht;
      destruct (_test_connection s w2) as [[[] | e] w3]
  end; cbn -[_build_connection_string getenv] in *.
  - split; [reflexivity |]. unfold constructed. cbn -[_build_connection_string getenv].
    destruct (Ht eq_refl) as [cs [Hcs Hacc]].
    split; [reflexivity |]. split; [reflexivity |]. intros _.
    split; [apply Hd; reflexivity |]. split; [reflexivity |].
    rewrite Hi in Hacc. injection Hcs as <-. exact Hacc.
  - destruct required; cbn -[_build_connection_string getenv]; [reflexivity |].
    split; [reflexivity |]. unfold constructed. cbn -[_build_connection_string getenv].
    repeat split; discriminate.
Qed.

(** X17: [DatabaseConnection(required=False)] always returns an object,
    in every world.  The object has its connection string and its
    upstream engine; it says [is_connected] only if the directory of
    the local store could be made, the object has its local engine, and
    the server accepted the connection string the object was built
    with. *)
Theorem X17_constructor_not_required_always_returns (w : World) :
  exists self w',
    new false w = (Ok self, w')
    /\ required self = false
    /\ conn_str self = Some (_build_connection_string self)
    /\ reactor_engine self = Some (_build_connection_string self)
    /\ (is_connected self = true ->
        data_dir_ok w = true
        /\ dashboard_engine self = Some "data/dashboard.db"
        /\ upstream_accepts w (_build_connection_string self) = true).
Proof.
  pose proof (new_constructed false w) as H.
  destruct (new false w) as [[self | e] w']; [| discriminate H].
  destruct H as [Hr [Hc [He Hconn]]].
  exists self, w'. repeat split; try assumption; try congruence; apply Hconn; assumption.
Qed.

(** X18: [DatabaseConnection(required=True)] raises when the server
    accepts no connection string, in every such world, while
    [DatabaseConnection(required=False)] returns an object that is not
    connected. *)
Theorem X18_constructor_required_raises_when_unreachable (w : World)
    (Hdown : forall cs, upstream_accepts w cs = false) :
  raised (fst (new true w)) = true
  /\ exists self w', new false w = (Ok self, w') /\ is_connected self = false.
Proof.
  split; [apply new_required_unreachable_raises, Hdown |].
  pose proof (new_constructed false w) as H.
  destruct (new false w) as [[self | e] w']; [| discriminate H].
  exists self, w'. split; [reflexivity |].
  destruct H as [_ [_ [_ Hconn]]].
  destruct (is_connected self); [| reflexivity].
  destruct (Hconn eq_refl) as [_ [_ Hacc]]. rewrite Hdown in Hacc. discriminate.
Qed.

Lemma X18_constructor_required_witness :
  raised (fst (new true world_upstream_down)) = true.
Proof.
  exact (proj1 (X18_constructor_required_raises_when_unreachable
                  world_upstream_down (fun _ => eq_refl))).
Defined.

(** X19: with a trusted connection (the variable reads yes, in any
    case of letters) the user name and the password do not enter the
    connection string: objects that differ in them only build the same
    string. *)
Theorem X19_trusted_connection_string_has_no_credentials
    (connected required required' connected' : bool)
    (server database driver port trusted : string)
    (username password username' password' : string)
    (cs rs ds cs' rs' ds' : option string)
    (Htrusted : lower trusted = "yes") :
  _build_connection_string
    (mkDatabaseConnection connected required server database username password
       driver port trusted cs rs ds)
  = _build_connection_string
      (mkDatabaseConnection connected' required' server database username'
         password' driver port trusted cs' rs' ds').
Proof.
  unfold _build_connection_string. cbn -[String.eqb String.append lower].
  rewrite Htrusted. reflexivity.
Qed.

Lemma X19_trusted_connection_string_witness :
  _build_connection_string
    (mkDatabaseConnection false false "localhost" "dbreactor" "sa" "secret"
       "{ODBC Driver 17 for SQL Server}" "1433" "Yes" None None None)
  = _build_connection_string
      (mkDatabaseConnection false false "localhost" "dbreactor" "" ""
         "{ODBC Driver 17 for SQL Server}" "1433" "Yes" None None None).
Proof.
  exact (X19_trusted_connection_string_has_no_credentials
           false false false false "localhost" "dbreactor"
           "{ODBC Driver 17 for SQL Server}" "1433" "Yes" "sa" "secret" "" ""
           None None None None None None eq_refl).
Defined.

(** ** The local store *)

Lemma initialize_dashboard_database_tables self w :
  feed_parameters (snd (initialize_dashboard_database self w))
  = (if is_Some_b (dashboard_engine self) && local_ok w
     then Some (default [] (feed_parameters w)) else feed_parameters w)
  /\ process_parameters (snd (initialize_dashboard_database self w))
     = (if is_Some_b (dashboard_engine self) && local_ok w
        then true else process_parameters w)
  /\ local_ok (snd (initialize_dashboard_database self w)) = local_ok w.
Proof.
  unfold initialize_dashboard_database, with_, try_except, bind, attribute,
    local_connect, is_Some_b.
  destruct (dashboard_engine self); cbn; [| repeat split].
  destruct (local_ok w) eqn:E; cbn; repeat split; exact E.
Qed.

(** X20: [initialize_dashboard_database] creates what is missing and
    touches nothing else: the rows already in [feed_parameters] are all
    kept, and a second run leaves both tables as the first run left
    them. *)
Theorem X20_initialize_keeps_rows_and_is_idempotent
    (self : DatabaseConnection) (w : World) :
  (forall l, feed_parameters w = Some l ->
     feed_parameters (snd (initialize_dashboard_database self w)) = Some l)
  /\ feed_parameters
       (snd (initialize_dashboard_database self
               (snd (initialize_dashboard_database self w))))
     = feed_parameters (snd (initialize_dashboard_database self w))
  /\ process_parameters
       (snd (initialize_dashboard_database self
               (snd (initialize_dashboard_database self w))))
     = process_parameters (snd (initialize_dashboard_database self w)).
Proof.
  destruct (initialize_dashboard_database_tables self w) as [Hf [Hp Hl]].
  destruct (initialize_dashboard_database_tables self
              (snd (initialize_dashboard_database self w))) as [Hf' [Hp' _]].
  split.
  - intros l Hl'. rewrite Hf, Hl'.
    destruct (is_Some_b (dashboard_engine self) && local_ok w); reflexivity.
  - rewrite Hf', Hp', Hl, Hf, Hp.
    destruct (is_Some_b (dashboard_engine self) && local_ok w); [| split; reflexivity].
    destruct (feed_parameters w); split; reflexivity.
Qed.

(** X21: [save_feed_parameters] only ever appends: whatever the object,
    the arguments and the world, the rows stored before are still
    there, unchanged and in the same order, followed by at most one new
    row, which holds [feed_type], the current second, and [toc] and
    [glucose_conc] as SQLite stores them, with [NULL] for [None] and
    for NaN; and where the table does not exist the call does not
    create it. *)
Theorem X21_save_feed_parameters_only_appends
    (self : DatabaseConnection) (feed_type : string)
    (toc glucose_conc : option Float) (w : World) :
  match feed_parameters w with
  | Some l =>
      exists added,
        feed_parameters
          (snd (save_feed_parameters self feed_type toc glucose_conc w))
        = Some (l ++ added)%list
        /\ (length added <= 1)%nat
        /\ Forall (fun r => row_feed_type r = feed_type
                            /\ row_toc_value r
                               = match toc with
                                 | Some FNaN | None => None
                                 | Some x => Some x
                                 end
                            /\ row_glucose_concentration r
                               = match glucose_conc with
                                 | Some FNaN | None => None
                                 | Some x => Some x
                                 end
                            /\ row_timestamp r = clock w) added
  | None =>
      feed_parameters
        (snd (save_feed_parameters self feed_type toc glucose_conc w))
      = None
  end.
Proof.
  unfold save_feed_parameters, with_, try_except, bind, attribute, local_connect,
    local_insert_feed.
  destruct (feed_parameters w) as [l |] eqn:Et.
  - destruct (dashboard_engine self); cbn.
    + destruct (local_ok w); cbn; rewrite ?Et; cbn.
      * eexists [_]. split; [reflexivity |]. split; [simpl; lia |].
        apply Forall_singleton.
        split; [reflexivity |].
        split; [destruct toc as [[q | n |] |]; reflexivity |].
        split; [destruct glucose_conc as [[q | n |] |]; reflexivity | reflexivity].
      * exists []. rewrite app_nil_r. split; [first [reflexivity | exact Et] |].
        split; [simpl; lia | apply Forall_nil_2].
    + exists []. rewrite app_nil_r. split; [first [reflexivity | exact Et] |].
      split; [simpl; lia | apply Forall_nil_2].
  - destruct (dashboard_engine self); cbn; [| first [reflexivity | exact Et]].
    destruct (local_ok w); cbn; rewrite ?Et; cbn; first [reflexivity | exact Et].
Qed.

Lemma latest_None l : latest l = None -> l = [].
Proof.
  destruct l as [| r l]; [reflexivity |]. simpl.
  destruct (latest l) as [r' |]; [| discriminate].
  destruct (row_timestamp r <? row_timestamp r')%Z; discriminate.
Qed.

Lemma latest_max l r :
  latest l = Some r ->
  r ∈ l /\ Forall (fun r' => (row_timestamp r' <= row_timestamp r)%Z) l.
Proof.
  revert r. induction l as [| a l IH]; intros r; simpl; [discriminate |].
  destruct (latest l) as [r' |] eqn:E.
  - destruct (IH r' eq_refl) as [Hin Hall].
    destruct (Z.ltb_spec (row_timestamp a) (row_timestamp r')) as [Hlt | Hge];
      intros H; injection H as <-.
    + split; [apply list_elem_of_further, Hin |].
      apply Forall_cons. split; [lia | exact Hall].
    + split; [apply list_elem_of_here |].
      apply Forall_cons. split; [lia |].
      eapply Forall_impl; [exact Hall |]. simpl. intros; lia.
  - intros H; injection H as <-. apply latest_None in E. subst l.
    split; [apply list_elem_of_here |]. apply Forall_singleton. lia.
Qed.

(** X22: from a local store that opens and a table with at least one
    row, [get_feed_parameters] returns the fields of a row of the
    table, and no row of the table has a later timestamp than that
    row; the call changes nothing in the table. *)
Theorem X22_get_feed_parameters_returns_a_latest_row
    (self : DatabaseConnection) (path : string) (w : World)
    (r0 : FeedRow) (l : list FeedRow)
    (Hengine : dashboard_engine self = Some path)
    (Hopen : local_ok w = true)
    (Htable : feed_parameters w = Some (r0 :: l)) :
  exists r,
    r ∈ r0 :: l
    /\ Forall (fun r' => (row_timestamp r' <= row_timestamp r)%Z) (r0 :: l)
    /\ fst (get_feed_parameters self w)
       = Ok (feed_record (row_feed_type r) (row_toc_value r)
               (row_glucose_concentration r) (row_timestamp r))
    /\ feed_parameters (snd (get_feed_parameters self w)) = Some (r0 :: l).
Proof.
  destruct (latest (r0 :: l)) as [r |] eqn:E;
    [| apply latest_None in E; discriminate E].
  destruct (latest_max _ _ E) as [Hin Hall].
  exists r. split; [exact Hin |]. split; [exact Hall |].
  split; [exact (get_feed_parameters_latest self path w _ r Hengine Hopen Htable E) |].
  unfold get_feed_parameters, with_, try_except, bind, attribute, local_connect,
    local_select_feed.
  rewrite Hengine. cbn. rewrite Hopen, Htable, E. cbn. exact Htable.
Qed.

Lemma X22_get_feed_parameters_witness :
  exists r,
    r ∈ [mkFeedRow 1 "control" (Some (FNum 10)) (Some (FNum 20)) 1699913600;
         mkFeedRow 2 "experimental" (Some (FNum 3)) None 1699999000;
         mkFeedRow 3 "control" None None 1699950000]
    /\ Forall (fun r' => (row_timestamp r' <= row_timestamp r)%Z)
         [mkFeedRow 1 "control" (Some (FNum 10)) (Some (FNum 20)) 1699913600;
          mkFeedRow 2 "experimental" (Some (FNum 3)) None 1699999000;
          mkFeedRow 3 "control" None None 1699950000]
    /\ fst (get_feed_parameters self_limited world_with_three_rows)
       = Ok (feed_record (row_feed_type r) (row_toc_value r)
               (row_glucose_concentration r) (row_timestamp r))
    /\ feed_parameters (snd (get_feed_parameters self_limited world_with_three_rows))
       = Some [mkFeedRow 1 "control" (Some (FNum 10)) (Some (FNum 20)) 1699913600;
               mkFeedRow 2 "experimental" (Some (FNum 3)) None 1699999000;
               mkFeedRow 3 "control" None None 1699950000].
Proof.
  exact (X22_get_feed_parameters_returns_a_latest_row self_limited
           "data/dashboard.db" world_with_three_rows _ _ eq_refl eq_refl eq_refl).
Defined.

(** X23: [get_feed_parameters] returns the empty dict, and does not
    raise, when the object has no local engine, when the local store
    does not open, when the table does not exist, and when the table is
    empty. *)
Theorem X23_get_feed_parameters_empty_cases
    (self : DatabaseConnection) (w : World)
    (Hcase : dashboard_engine self = None \/ local_ok w = false
             \/ feed_parameters w = None \/ feed_parameters w = Some []) :
  fst (get_feed_parameters self w) = Ok (PyDict []).
Proof.
  unfold get_feed_parameters, with_, try_except, bind, attribute, local_connect,
    local_select_feed.
  destruct (dashboard_engine self) as [p |] eqn:Ee; cbn; [| reflexivity].
  destruct (local_ok w) eqn:El; cbn; [| reflexivity].
  destruct Hcase as [H | [H | [H | H]]]; try discriminate H;
    rewrite H; reflexivity.
Qed.

Lemma X23_get_feed_parameters_empty_witness :
  fst (get_feed_parameters self_limited world_upstream_down) = Ok (PyDict []).
Proof.
  apply (X23_get_feed_parameters_empty_cases self_limited world_upstream_down).
  right. right. left. reflexivity.
Defined.

(** ** What the local calls and the constructor send upstream *)

Lemma quiet_local_create_feed_parameters : quiet local_create_feed_parameters.
Proof. intros w. reflexivity. Qed.

Lemma quiet_local_create_process_parameters :
  quiet local_create_process_parameters.
Proof. intros w. reflexivity. Qed.

Lemma initialize_dashboard_database_quiet self :
  quiet (initialize_dashboard_database self).
Proof.
  unfold initialize_dashboard_database.
  pose proof quiet_local_create_feed_parameters.
  pose proof quiet_local_create_process_parameters.
  quiet_tac.
Qed.

(** X24: the calls that work on the local store send nothing to the
    upstream server: [initialize_dashboard_database],
    [save_feed_parameters] and [get_feed_parameters] leave the list of
    statements sent as it was. *)
Theorem X24_local_calls_send_nothing_upstream
    (self : DatabaseConnection) (feed_type : string)
    (toc glucose_conc : option Float) (w : World) :
  issued (snd (initialize_dashboard_database self w)) = issued w
  /\ issued (snd (save_feed_parameters self feed_type toc glucose_conc w))
     = issued w
  /\ issued (snd (get_feed_parameters self w)) = issued w.
Proof.
  destruct (local_calls_quiet self feed_type toc glucose_conc) as [Hs Hg].
  split; [apply initialize_dashboard_database_quiet |].
  split; [apply Hs | apply Hg].
Qed.

(** X25: the constructor sends the upstream server at most one
    statement, the version query of its connection test, with no
    parameter; whether it returns or raises. *)
Theorem X25_constructor_sends_at_most_the_version_query
    (required : bool) (w : World) :
  issued (snd (new required w)) = issued w
  \/ issued (snd (new required w)) = (issued w ++ [mkStatement query_version []])%list.
Proof.
  unfold_init.
  pose proof (_create_dashboard_engine_world w) as Hw.
  destruct (_create_dashboard_engine w) as [[p | e] w1]; cbn in Hw; subst w1;
    cbn -[_build_connection_string getenv _test_connection
          initialize_dashboard_database].
  2: { left. destruct required; reflexivity. }
  match goal with
  | |- context [initialize_dashboard_database ?s w] =>
      pose proof (initialize_dashboard_database_quiet s w) as Hq;
      pose proof (initialize_dashboard_database_upstream s w) as Hi;
      pose proof (initialize_dashboard_database_returns s w) as Hr;
      destruct (initialize_dashboard_database s w) as [[[] | e] w2]
  end; [| discriminate Hr].
  cbn -[_build_connection_string getenv _test_connection] in *.
  match goal with
  | |- context [_test_connection ?s w2] =>
      pose proof (_test_connection_issued s w2) as Ht;
      destruct (_test_connection s w2) as [[[] | e] w3]
  end; cbn -[_build_connection_string getenv] in *; rewrite Hq in Ht;
    match type of Ht with
    | context [if ?c then _ else _] => destruct c
    end;
    rewrite ?app_nil_r in Ht;
    try (destruct required); cbn; auto.
Qed.

(** ** Leaving a [with] block *)

(** X26: on an object the constructor has returned, [__exit__] does not
    raise, whatever the world and whether or not the block raised; it
    returns [False], so that an exception of the block goes on to the
    caller, and it leaves the object not connected. *)
Theorem X26_exit_returns_false_and_disconnects
    (required : bool) (w w' : World) (self : DatabaseConnection)
    (exc : option Exn)
    (Hnew : fst (new required w) = Ok self) :
  fst (__exit__ exc (self, w')) = Ok false
  /\ is_connected (fst (snd (__exit__ exc (self, w')))) = false.
Proof.
  pose proof (new_constructed required w) as H.
  destruct (new required w) as [[self0 | e] w1]; [| discriminate Hnew].
  cbn in Hnew. injection Hnew as ->.
  destruct H as [_ [Hcs [Hre Hconn]]].
  unfold __exit__, bind, self_, gets, liftW, assign, modify, attribute, ret.
  cbn. destruct (is_connected self) eqn:Ec.
  - destruct (Hconn eq_refl) as [_ [Hde _]].
    rewrite Hre, Hcs, Hde. cbn. destruct exc; cbn; split; reflexivity.
  - cbn. destruct exc; cbn; split; first [reflexivity | exact Ec].
Qed.

Lemma X26_exit_witness :
  fst (__exit__ None (self_limited, world_upstream_down)) = Ok false
  /\ is_connected (fst (snd (__exit__ None (self_limited, world_upstream_down))))
     = false.
Proof.
  apply (X26_exit_returns_false_and_disconnects false world_upstream_down
           world_upstream_down self_limited None).
  vm_compute. reflexivity.
Defined.

(** ** The shape of the current values *)

Lemma returns_shape_bind {A : Type} (m : M A) (k : A -> M PyVal) :
  (forall a, returns_shape (k a)) -> returns_shape (bind m k).
Proof.
  intros Hk w v w'. unfold bind.
  destruct (m w) as [[a | e] w1]; [apply Hk | discriminate].
Qed.

Lemma returns_shape_ret v : current_values_shape v -> returns_shape (ret v).
Proof. intros Hv w v' w' H. injection H as <- _. exact Hv. Qed.

Lemma current_values_shape_empty : current_values_shape (PyDict []).
Proof. exists []. split; [reflexivity | left; reflexivity]. Qed.

(** X27: [get_current_values] always returns a dict, in every world:
    either the empty dict (no row, a column missing, or any failure) or
    a dict with exactly the six groups mfc1, do, ph, weights, pump and
    operation, in this order. *)
Theorem X27_current_values_is_empty_or_has_six_groups
    (self : DatabaseConnection) (w : World) :
  exists items,
    fst (get_current_values self w) = Ok (PyDict items)
    /\ (items = []
        \/ map fst items = ["mfc1"; "do"; "ph"; "weights"; "pump"; "operation"]).
Proof.
  unfold get_current_values, try_except.
  match goal with
  | |- context [match ?m w with _ => _ end] =>
      assert (Hm : returns_shape m); [| destruct (m w) as [[v | e] w1] eqn:E]
  end.
  - apply returns_shape_bind. intros engine.
    unfold with_. apply returns_shape_bind. intros _.
    apply returns_shape_bind. intros df.
    destruct (fetchone df) as [[| c result] |];
      try (apply returns_shape_ret, current_values_shape_empty).
    repeat (apply returns_shape_bind; intros ?).
    apply returns_shape_ret. eexists. split; [reflexivity |]. right. reflexivity.
  - destruct (Hm w v w1 E) as [items [-> Hitems]].
    exists items. split; [reflexivity | exact Hitems].
  - exists []. split; [reflexivity | left; reflexivity].
Qed.

End PersistenceFacts.

(* ================================================================== *)
(** * Properties of the mock source and the hook *)
(* ================================================================== *)

Module MockFacts.

Import Mock.
Local Open Scope R_scope.

(** ** The frames of [generateMockMetrics] *)

(** X6: every frame of the mock generator has its flow set point and
    its flow value in [0.375, 0.625], its DO reading in [700, 920] PPM,
    its pH in [6.75, 7.5] and both probe temperatures in [37, 37.25],
    at any time and for any random draws.  The bounds are numbers that
    binary64 represents exactly, and they leave room for the rounding
    of the arithmetic, which the model leaves out. *)
Theorem X6_mock_frame_ranges (now : Z) (rnd : Randoms)
    (Hrnd : in_unit_interval rnd) :
  let d := generateMockMetrics now rnd in
  (0.375 <= Metrics.LB_MFC_1_SP d <= 0.625)
  /\ (0.375 <= Metrics.LB_MFC_1_PV d <= 0.625)
  /\ (700 <= Metrics.Reactor_1_DO_Value_PPM d <= 920)
  /\ (37 <= Metrics.Reactor_1_DO_T_Value d <= 37.25)
  /\ (6.75 <= Metrics.Reactor_1_PH_Value d <= 7.5)
  /\ (37 <= Metrics.Reactor_1_PH_T_Value d <= 37.25).
Proof.
  destruct Hrnd as [Hpv [Hdo [Hdot [Hph Hpht]]]].
  pose proof (SIN_bound (IZR now / 10000)) as Hsin.
  simpl. repeat split; lra.
Qed.

Lemma X6_mock_frame_ranges_witness :
  700 <= Metrics.Reactor_1_DO_Value_PPM
           (generateMockMetrics 0 (mkRandoms 0 0 0 0 0)) <= 920.
Proof.
  assert (H : in_unit_interval (mkRandoms 0 0 0 0 0))
    by (unfold in_unit_interval; simpl; lra).
  exact (proj1 (proj2 (proj2 (X6_mock_frame_ranges 0 (mkRandoms 0 0 0 0 0) H)))).
Defined.

(** X7: the metrics [calculateMetrics] derives from a frame of the mock
    generator lie inside [METRIC_RANGES]: [do_saturation] is between
    [DO_VALUE.min] and [DO_VALUE.max], [ph] between [PH_VALUE.min] and
    [PH_VALUE.max], and [temperature] between [TEMPERATURE.min] and
    [TEMPERATURE.max], at any time and for any random draws. *)
Theorem X7_mock_metrics_within_METRIC_RANGES
    (clk : Metrics.Clock) (now : Z) (rnd : Randoms)
    (Hrnd : in_unit_interval rnd) :
  let m := Metrics.calculateMetrics clk (generateMockMetrics now rnd) in
  (DO_VALUE_min <= Metrics.do_saturation m <= DO_VALUE_max)
  /\ (PH_VALUE_min <= Metrics.ph m <= PH_VALUE_max)
  /\ (TEMPERATURE_min <= Metrics.temperature m <= TEMPERATURE_max).
Proof.
  destruct Hrnd as [Hpv [Hdo [Hdot [Hph Hpht]]]].
  pose proof (SIN_bound (IZR now / 10000)) as Hsin.
  unfold DO_VALUE_min, DO_VALUE_max, PH_VALUE_min, PH_VALUE_max,
    TEMPERATURE_min, TEMPERATURE_max.
  simpl. repeat split; lra.
Qed.

Lemma X7_mock_metrics_witness :
  DO_VALUE_min
  <= Metrics.do_saturation
       (Metrics.calculateMetrics (Metrics.frozen 0)
          (generateMockMetrics 0 (mkRandoms 0 0 0 0 0)))
  <= DO_VALUE_max.
Proof.
  assert (H : in_unit_interval (mkRandoms 0 0 0 0 0))
    by (unfold in_unit_interval; simpl; lra).
  exact (proj1 (X7_mock_metrics_within_METRIC_RANGES
                  (Metrics.frozen 0) 0 (mkRandoms 0 0 0 0 0) H)).
Defined.

(** ** The mock manager *)

Lemma call_fields clk data s cb :
  callbacks (call clk data s cb) = callbacks s
  /\ intervalId (call clk data s cb) = intervalId s
  /\ intervals (call clk data s cb) = intervals s
  /\ next_handle (call clk data s cb) = next_handle s.
Proof. destruct cb; repeat split. Qed.

Lemma fold_call_fields clk data l s :
  callbacks (fold_left (call clk data) l s) = callbacks s
  /\ intervalId (fold_left (call clk data) l s) = intervalId s
  /\ intervals (fold_left (call clk data) l s) = intervals s
  /\ next_handle (fold_left (call clk data) l s) = next_handle s.
Proof.
  revert s. induction l as [| cb l IH]; intros s; simpl; [repeat split |].
  destruct (IH (call clk data s cb)) as [H1 [H2 [H3 H4]]].
  destruct (call_fields clk data s cb) as [K1 [K2 [K3 K4]]].
  repeat split; congruence.
Qed.

Lemma emitData_fields p s :
  callbacks (emitData p s) = callbacks s
  /\ intervalId (emitData p s) = intervalId s
  /\ intervals (emitData p s) = intervals s
  /\ next_handle (emitData p s) = next_handle s.
Proof. apply fold_call_fields. Qed.



Lemma connect_holds p s : holds_its_interval s -> holds_its_interval (connect p s).
Proof.
  unfold holds_its_interval, connect. intros H.
  destruct (intervalId s) eqn:E; [rewrite E; exact H |].
  simpl. destruct (emitData_fields p s) as [_ [_ [Hi Hn]]].
  rewrite Hi, H. reflexivity.
Qed.

Lemma disconnect_holds s : holds_its_interval s -> holds_its_interval (disconnect s).
Proof.
  unfold holds_its_interval, disconnect. intros H.
  destruct (intervalId s) as [id |] eqn:E; [| rewrite E; exact H].
  simpl. rewrite H. simpl. rewrite Nat.eqb_refl. reflexivity.
Qed.

Lemma subscribe_holds cb s : holds_its_interval s -> holds_its_interval (subscribe cb s).
Proof. unfold subscribe. destruct (existsb _ _); intros H; exact H. Qed.

Lemma emitData_holds p s : holds_its_interval s -> holds_its_interval (emitData p s).
Proof.
  unfold holds_its_interval. destruct (emitData_fields p s) as [_ [Hid [Hi _]]].
  rewrite Hid, Hi. intros H; exact H.
Qed.

Lemma step_holds e s : holds_its_interval s -> holds_its_interval (step e s).
Proof.
  intros H. destruct e; simpl.
  - apply subscribe_holds, connect_holds, H.
  - apply disconnect_holds. exact H.
  - apply connect_holds, H.
  - apply disconnect_holds, H.
  - apply subscribe_holds, H.
  - exact H.
  - destruct (existsb _ _); [apply emitData_holds, H | exact H].
Qed.

Lemma run_holds es s : holds_its_interval s -> holds_its_interval (run es s).
Proof.
  revert s. induction es as [| e es IH]; intros s H; simpl; [exact H |].
  apply IH, step_holds, H.
Qed.

(** X9: the mock manager never leaves an interval behind: in every
    state the page can reach, the intervals set in the window are
    exactly the one the manager holds, or none when it holds none. *)
Theorem X9_mock_manager_leaks_no_interval (es : list Event) :
  intervals (run es initial)
  = match intervalId (run es initial) with Some id => [id] | None => [] end.
Proof. apply (run_holds es initial). reflexivity. Qed.

(** X10: once the hook has unmounted, no interval runs any more: a tick
    of any interval, current or stale, changes nothing, so the store
    keeps the metrics it had. *)
Theorem X10_no_emission_after_unmount (es : list Event) (id : nat) (p : Pulse) :
  step (Tick id p) (unmount (run es initial)) = unmount (run es initial).
Proof.
  pose proof (step_holds Unmount _ (run_holds es initial eq_refl)) as H.
  simpl in H. simpl.
  assert (Hnone : intervalId (unmount (run es initial)) = None).
  { unfold unmount, disconnect, unsubscribe. cbn.
    destruct (intervalId (run es initial)); reflexivity. }
  unfold holds_its_interval in H. rewrite Hnone in H. rewrite H. reflexivity.
Qed.

(** ** The hook *)



End MockFacts.

(* ================================================================== *)
(** * Properties of the chart's window *)
(* ================================================================== *)

Module ChartFacts.

Import Chart.

Lemma slice_last_length {A : Type} (n : nat) (l : list A) :
  length (slice_last n l) = Nat.min (length l) n.
Proof. unfold slice_last. rewrite length_drop. lia. Qed.

Lemma slice_last_short {A : Type} (n : nat) (l : list A) :
  (length l <= n)%nat -> slice_last n l = l.
Proof.
  intros H. unfold slice_last.
  replace (length l - n)%nat with 0%nat by lia. apply drop_0.
Qed.

(** Cutting before appending does not change what is left after the
    next cut. *)
Lemma slice_last_snoc {A : Type} (n : nat) (l : list A) (x : A) :
  (1 <= n)%nat ->
  slice_last n (slice_last n l ++ [x]) = slice_last n (l ++ [x]).
Proof.
  intros Hn. destruct (Nat.le_gt_cases (length l) n) as [Hle | Hgt].
  - rewrite (slice_last_short n l Hle). reflexivity.
  - unfold slice_last at 1 3.
    rewrite !length_app, slice_last_length. simpl length.
    replace (Nat.min (length l) n + 1 - n)%nat with 1%nat by lia.
    rewrite !drop_app_le by (rewrite ?slice_last_length; lia).
    unfold slice_last. rewrite drop_drop.
    replace (length l - n + 1)%nat with (length l + 1 - n)%nat by lia.
    reflexivity.
Qed.

(** X12: the chart never holds more than 60 points and never loses the
    newest one: after an update it has one point more than before, up
    to 60, and the point of the metrics just received is the last. *)
Theorem X12_chart_window_is_bounded (prevData : list Point) (m : Metrics.Metrics) :
  length (push prevData m) = Nat.min (S (length prevData)) 60
  /\ last (push prevData m) = Some (point_of m).
Proof.
  unfold push. split.
  - rewrite slice_last_length, length_app. simpl. lia.
  - unfold slice_last. rewrite length_app. simpl length.
    destruct (Nat.le_gt_cases (length prevData + 1) 60) as [Hle | Hgt].
    + replace (length prevData + 1 - 60)%nat with 0%nat by lia.
      rewrite drop_0. apply last_snoc.
    + rewrite drop_app_le by lia. apply last_snoc.
Qed.

Lemma fold_push (ms : list Metrics.Metrics) (prevData : list Point) :
  fold_left push ms (slice_last 60 prevData)
  = slice_last 60 (prevData ++ map point_of ms).
Proof.
  revert prevData. induction ms as [| m ms IH]; intros prevData; simpl.
  - rewrite app_nil_r. reflexivity.
  - unfold push at 2. rewrite slice_last_snoc by lia.
    rewrite IH, <- app_assoc. reflexivity.
Qed.

(** X13: after any series of updates, starting with no point, the chart
    holds the points of the last 60 metrics received, in the order they
    came, or of all of them when fewer than 60 came. *)
Theorem X13_chart_holds_the_last_60_points (ms : list Metrics.Metrics) :
  fold_left push ms [] = slice_last 60 (map point_of ms).
Proof. apply (fold_push ms []). Qed.

End ChartFacts.

(* ================================================================== *)
(** * Properties of the feature flags *)
(* ================================================================== *)

Module FeatureFlagsFacts.

Import FeatureFlags.

Lemma getAllFeatures_copy f : getAllFeatures f = f.
Proof. destruct f; reflexivity. Qed.

Lemma isEnabled_setFeature (k k' : Key) (enabled : bool) (f : Features) :
  isEnabled k' (setFeature k enabled f)
  = if Key_eqb k k' then enabled else isEnabled k' f.
Proof. destruct k, k'; reflexivity. Qed.

(** X14: a flag reads back as it was last set, and setting one flag
    leaves the other five as they were. *)
Theorem X14_flag_reads_back_as_set (k k' : Key) (enabled : bool) (f : Features) :
  isEnabled k' (setFeature k enabled f)
  = if Key_eqb k k' then enabled else isEnabled k' f.
Proof. apply isEnabled_setFeature. Qed.

(** X15: after [updateFeatures] the store's copy of the flags agrees
    with the registry; each flag named in the update has the value of
    its last entry, and each flag not named keeps its value. *)
Theorem X15_updateFeatures_applies_entries_and_syncs_store
    (entries : list (Key * bool)) (s : Flags) (k : Key) :
  store_features (updateFeatures entries s) = registry (updateFeatures entries s)
  /\ isEnabled k (registry (updateFeatures entries s))
     = match find (fun kv => Key_eqb (fst kv) k) (rev entries) with
       | Some kv => snd kv
       | None => isEnabled k (registry s)
       end.
Proof.
  split; [apply getAllFeatures_copy |].
  unfold updateFeatures. simpl.
  induction entries as [| [k0 b] entries IH] using rev_ind; [reflexivity |].
  rewrite fold_left_app, rev_app_distr. simpl.
  rewrite isEnabled_setFeature. destruct (Key_eqb k0 k); [reflexivity | exact IH].
Qed.

End FeatureFlagsFacts.
